(** * BusTimeETLA: the incident processor of [main.py]

    A shallow embedding of the Lambda handler of [main.py] and of the
    parts of the Python runtime it calls ([str] methods, [re.match],
    [int], [json.loads], [json.dumps], [dict]), followed by the
    properties of the handler.

    Python text is a sequence of Unicode code points; the two storage
    collaborators (the S3 client and the DynamoDB table) and the clock
    are the outside world of an invocation. *)

From Stdlib Require Import List NArith ZArith String Ascii Bool Lia.
From Stdlib Require Import DecimalString HexadecimalString.
Import ListNotations.

Set Implicit Arguments.
Set Warnings "-register-all".

(** ** Python [str] *)

(** A [str] is a list of code points. *)
Definition pystr := list N.

(** Code point of an ASCII character. *)
Definition chr (a : ascii) : N := N_of_ascii a.

(** UTF-8 decoding, used to write [str] literals: [u "15–30"]. *)
Fixpoint utf8_decode (bs : list N) : pystr :=
  match bs with
  | [] => []
  | b0 :: t0 =>
    if (b0 <? 128)%N then b0 :: utf8_decode t0 else
    match t0 with
    | [] => [b0]
    | b1 :: t1 =>
      if (b0 <? 224)%N
      then ((b0 - 192) * 64 + (b1 - 128))%N :: utf8_decode t1 else
      match t1 with
      | [] => [b0; b1]
      | b2 :: t2 =>
        if (b0 <? 240)%N
        then ((b0 - 224) * 4096 + (b1 - 128) * 64 + (b2 - 128))%N
               :: utf8_decode t2 else
        match t2 with
        | [] => [b0; b1; b2]
        | b3 :: t3 =>
          ((b0 - 240) * 262144 + (b1 - 128) * 4096
           + (b2 - 128) * 64 + (b3 - 128))%N :: utf8_decode t3
        end
      end
    end
  end.

Definition u (s : string) : pystr :=
  utf8_decode (map N_of_ascii (list_ascii_of_string s)).

Fixpoint str_eqb (a b : pystr) : bool :=
  match a, b with
  | [], [] => true
  | x :: a', y :: b' => (x =? y)%N && str_eqb a' b'
  | _, _ => false
  end.

(** [s.startswith(p)] *)
Fixpoint startswith (p s : pystr) : bool :=
  match p, s with
  | [], _ => true
  | x :: p', y :: s' => (x =? y)%N && startswith p' s'
  | _ :: _, [] => false
  end.

(** [needle in hay] for two [str]. *)
Fixpoint str_in (needle hay : pystr) : bool :=
  startswith needle hay ||
  match hay with
  | [] => false
  | _ :: hay' => str_in needle hay'
  end.

(** [sep.join(parts)] *)
Fixpoint str_join (sep : pystr) (parts : list pystr) : pystr :=
  match parts with
  | [] => []
  | [p] => p
  | p :: ((_ :: _) as rest) => p ++ sep ++ str_join sep rest
  end.

(** The code points [str.strip()] and [int()] treat as white space
    (CPython's [_PyUnicode_IsWhitespace]). *)
Definition py_isspace (c : N) : bool :=
  ((9 <=? c) && (c <=? 13) || (28 <=? c) && (c <=? 32)
   || (c =? 133) || (c =? 160) || (c =? 5760)
   || (8192 <=? c) && (c <=? 8202)
   || (c =? 8232) || (c =? 8233) || (c =? 8239) || (c =? 8287)
   || (c =? 12288))%N.

Fixpoint str_lstrip (s : pystr) : pystr :=
  match s with
  | c :: s' => if py_isspace c then str_lstrip s' else s
  | [] => []
  end.

(** [s.strip()] *)
Definition str_strip (s : pystr) : pystr :=
  rev (str_lstrip (rev (str_lstrip s))).

Definition is_ascii (c : N) : Prop := (c < 128)%N.

Definition ascii_lower (c : N) : N :=
  if ((65 <=? c) && (c <=? 90))%N then (c + 32)%N else c.

Definition ascii_digit (c : N) : option Z :=
  if ((48 <=? c) && (c <=? 57))%N then Some (Z.of_N c - 48)%Z else None.

(** Decimal and hexadecimal text of a number. *)
Definition str_of_Z (z : Z) : pystr :=
  u (DecimalString.NilZero.string_of_int (Z.to_int z)).

Definition str_of_N (n : N) : pystr := str_of_Z (Z.of_N n).

Definition hex_of_N (n : N) : pystr :=
  u (HexadecimalString.NilZero.string_of_uint (N.to_hex_uint n)).

(** [format(n, '0<w>x')]: lower-case hexadecimal, zero padded. *)
Definition hex_pad (w : nat) (n : N) : pystr :=
  let h := hex_of_N n in
  repeat (chr "0") (w - List.length h) ++ h.

(** ** The part of the runtime that is data of the interpreter

    The Unicode case mapping, the table of decimal digits and of
    printable characters, and the binary floating point arithmetic are
    not embedded: they are fields of the runtime, constrained on ASCII
    text, where they are known.  A [float] is kept as the literal it
    was read from. *)
Class PyRuntime := {
  (** [s.lower()] *)
  str_lower : pystr -> pystr;
  str_lower_ascii :
    forall s, Forall is_ascii s -> str_lower s = map ascii_lower s;
  (** value of a decimal digit, for [int()] *)
  unicode_digit : N -> option Z;
  unicode_digit_ascii :
    forall c, is_ascii c -> unicode_digit c = ascii_digit c;
  (** [str.isprintable] on one code point, for [repr] *)
  unicode_isprintable : N -> bool;
  (** [float(lit) == 0.0] *)
  float_is_zero : pystr -> bool;
  (** [repr(float(lit))], with json's names for nan and the infinities *)
  float_repr : pystr -> pystr
}.

(** ** Python values, as [json.loads] builds them *)

Inductive value :=
| VNone
| VBool (b : bool)
| VInt (z : Z)
| VFloat (lit : pystr)
| VStr (s : pystr)
| VList (l : list value)
| VDict (d : list (pystr * value)).

(** A [dict] with [str] keys, in insertion order. *)
Definition pydict := list (pystr * value).

Fixpoint dict_get (d : pydict) (k : pystr) : option value :=
  match d with
  | [] => None
  | (k', v) :: d' => if str_eqb k' k then Some v else dict_get d' k
  end.

Definition dict_contains (d : pydict) (k : pystr) : bool :=
  match dict_get d k with Some _ => true | None => false end.

(** [d[k] = v]: a present key keeps its place, a new key goes last. *)
Fixpoint dict_set (d : pydict) (k : pystr) (v : value) : pydict :=
  match d with
  | [] => [(k, v)]
  | (k', v') :: d' =>
    if str_eqb k' k then (k', v) :: d' else (k', v') :: dict_set d' k v
  end.

(** [d.update(other)], which is also what [{..., **other}] does. *)
Definition dict_update (d other : pydict) : pydict :=
  fold_left (fun acc kv => dict_set acc (fst kv) (snd kv)) other d.

Definition dict_keys (d : pydict) : list pystr := map fst d.

(** [type(v).__name__] *)
Definition type_name (v : value) : pystr :=
  match v with
  | VNone => u "NoneType"
  | VBool _ => u "bool"
  | VInt _ => u "int"
  | VFloat _ => u "float"
  | VStr _ => u "str"
  | VList _ => u "list"
  | VDict _ => u "dict"
  end.

(** [bool(v)] *)
Definition truthy `{PyRuntime} (v : value) : bool :=
  match v with
  | VNone => false
  | VBool b => b
  | VInt z => negb (z =? 0)%Z
  | VFloat lit => negb (float_is_zero lit)
  | VStr s => match s with [] => false | _ => true end
  | VList l => match l with [] => false | _ => true end
  | VDict d => match d with [] => false | _ => true end
  end.

(** ** Exceptions *)

Inductive exn_class :=
| KeyError | TypeError | AttributeError | ValueError | JSONDecodeError
| RecursionError
| ServiceError.  (* whatever a storage collaborator raises *)

(** An exception with the text [str(e)] gives. *)
Record exn := Exn { exn_cls : exn_class; exn_str : pystr }.

Definition result (A : Type) := (exn + A)%type.
Definition Ok {A} (a : A) : result A := inr a.
Definition Raise {A} (c : exn_class) (msg : pystr) : result A :=
  inl (Exn c msg).

Definition rbind {A B} (r : result A) (f : A -> result B) : result B :=
  match r with
  | inl e => inl e
  | inr a => f a
  end.

Notation "x <- r ;; k" := (rbind r (fun x => k))
  (at level 61, r at next level, right associativity, only parsing).

(** ** [repr] of a [str] *)

Definition repr_char `{PyRuntime} (quote c : N) : pystr :=
  if ((c =? quote) || (c =? 92))%N then [92%N; c]
  else if (c =? 9)%N then u "\t"
  else if (c =? 10)%N then u "\n"
  else if (c =? 13)%N then u "\r"
  else if ((c <? 32) || (c =? 127))%N then u "\x" ++ hex_pad 2 c
  else if (c <? 127)%N then [c]
  else if unicode_isprintable c then [c]
  else if (c <? 256)%N then u "\x" ++ hex_pad 2 c
  else if (c <? 65536)%N then u "\u" ++ hex_pad 4 c
  else u "\U" ++ hex_pad 8 c.

Definition mem_N (c : N) (cs : list N) : bool := existsb (N.eqb c) cs.

Definition py_repr `{PyRuntime} (s : pystr) : pystr :=
  let quote := if mem_N 39%N s && negb (mem_N 34%N s) then 34%N else 39%N in
  quote :: flat_map (repr_char quote) s ++ [quote].

(** ** [json.dumps], with its default settings *)

Definition json_escape_char (c : N) : pystr :=
  if (c =? 34)%N then [92%N; 34%N]
  else if (c =? 92)%N then [92%N; 92%N]
  else if (c =? 10)%N then u "\n"
  else if (c =? 13)%N then u "\r"
  else if (c =? 9)%N then u "\t"
  else if (c =? 8)%N then u "\b"
  else if (c =? 12)%N then u "\f"
  else if ((32 <=? c) && (c <=? 126))%N then [c]
  else if (c <? 65536)%N then u "\u" ++ hex_pad 4 c
  else
    let n := (c - 65536)%N in
    u "\u" ++ hex_pad 4 (55296 + n / 1024)%N
      ++ u "\u" ++ hex_pad 4 (56320 + n mod 1024)%N.

Definition json_str (s : pystr) : pystr :=
  34%N :: flat_map json_escape_char s ++ [34%N].

Fixpoint json_dumps `{PyRuntime} (v : value) : pystr :=
  match v with
  | VNone => u "null"
  | VBool true => u "true"
  | VBool false => u "false"
  | VInt z => str_of_Z z
  | VFloat lit => float_repr lit
  | VStr s => json_str s
  | VList l =>
    u "[" ++
    (fix items (l : list value) : pystr :=
       match l with
       | [] => []
       | x :: l' =>
         json_dumps x ++
         match l' with [] => [] | _ :: _ => u ", " ++ items l' end
       end) l
    ++ u "]"
  | VDict d =>
    u "{" ++
    (fix members (d : list (pystr * value)) : pystr :=
       match d with
       | [] => []
       | (k, x) :: d' =>
         json_str k ++ u ": " ++ json_dumps x ++
         match d' with [] => [] | _ :: _ => u ", " ++ members d' end
       end) d
    ++ u "}"
  end.

(** ** [json.loads]

    The decoder of the [json] module with its default settings, on a
    [str].  The limits of the interpreter (depth of recursion, length
    of an integer literal) are not part of it. *)

(** A decoding failure: the message and the input left unread where it
    was found, from which the position is computed. *)
Inductive decode_error :=
| DecodeError (msg : pystr) (rest : pystr)
| TooDeep.

Definition parse (A : Type) := (decode_error + A)%type.

Definition json_ws (c : N) : bool :=
  ((c =? 32) || (c =? 9) || (c =? 10) || (c =? 13))%N.

Fixpoint skip_ws (s : pystr) : pystr :=
  match s with
  | c :: s' => if json_ws c then skip_ws s' else s
  | [] => []
  end.

Definition is_digit (c : N) : bool := ((48 <=? c) && (c <=? 57))%N.

Definition hex_digit (c : N) : option N :=
  if is_digit c then Some (c - 48)%N
  else if ((97 <=? c) && (c <=? 102))%N then Some (c - 87)%N
  else if ((65 <=? c) && (c <=? 70))%N then Some (c - 55)%N
  else None.

Definition hex4 (s : pystr) : option (N * pystr) :=
  match s with
  | a :: b :: c :: d :: rest =>
    match hex_digit a, hex_digit b, hex_digit c, hex_digit d with
    | Some a, Some b, Some c, Some d =>
      Some ((((a * 16 + b) * 16 + c) * 16 + d)%N, rest)
    | _, _, _, _ => None
    end
  | _ => None
  end.

Definition simple_escape (e : N) : option N :=
  if ((e =? 34) || (e =? 92) || (e =? 47))%N then Some e
  else if (e =? 98)%N then Some 8%N
  else if (e =? 102)%N then Some 12%N
  else if (e =? 110)%N then Some 10%N
  else if (e =? 114)%N then Some 13%N
  else if (e =? 116)%N then Some 9%N
  else None.

Definition unterminated : pystr := u "Unterminated string starting at".
Definition invalid_uXXXX : pystr := u "Invalid \uXXXX escape".

(** The body of a string literal, after its opening quote; [start] is
    the input at that quote and [acc] the text read so far, reversed. *)
Fixpoint scan_string (fuel : nat) (start s acc : pystr)
  : parse (pystr * pystr) :=
  match fuel with
  | O => inl TooDeep
  | S fuel' =>
    match s with
    | [] => inl (DecodeError unterminated start)
    | c :: s1 =>
      if (c =? 34)%N then inr (rev acc, s1)
      else if (c =? 92)%N then
        match s1 with
        | [] => inl (DecodeError unterminated start)
        | e :: s2 =>
          if (e =? 117)%N then
            match hex4 s2 with
            | None => inl (DecodeError invalid_uXXXX s)
            | Some (c1, s3) =>
              if ((55296 <=? c1) && (c1 <=? 56319))%N then
                match s3 with
                | 92%N :: 117%N :: s4 =>
                  match hex4 s4 with
                  | None => inl (DecodeError invalid_uXXXX s3)
                  | Some (c2, s5) =>
                    if ((56320 <=? c2) && (c2 <=? 57343))%N
                    then scan_string fuel' start s5
                           ((65536 + (c1 - 55296) * 1024 + (c2 - 56320))%N
                              :: acc)
                    else scan_string fuel' start s3 (c1 :: acc)
                  end
                | _ => scan_string fuel' start s3 (c1 :: acc)
                end
              else scan_string fuel' start s3 (c1 :: acc)
            end
          else
            match simple_escape e with
            | Some c' => scan_string fuel' start s2 (c' :: acc)
            | None =>
              inl (DecodeError (u "Invalid \escape: " ++ [39%N; 92%N; e; 39%N]) s)
            end
        end
      else if (c <? 32)%N
      then inl (DecodeError (u "Invalid control character at") s)
      else scan_string fuel' start s1 (c :: acc)
    end
  end.

Fixpoint span_digits (s : pystr) : pystr * pystr :=
  match s with
  | c :: s' =>
    if is_digit c
    then let (d, r) := span_digits s' in (c :: d, r)
    else ([], s)
  | [] => ([], [])
  end.

Definition Z_of_digits (ds : pystr) : Z :=
  fold_left (fun acc c => (10 * acc + (Z.of_N c - 48))%Z) ds 0%Z.

(** A number at the head of [s]: an optional minus sign, then a zero
    or a digit string without leading zero, then an optional fraction
    (a dot and digits) and an optional exponent; an [int] when it has
    neither fraction nor exponent and a [float] otherwise. *)
Definition scan_number (s : pystr) : option (value * pystr) :=
  let '(neg, s1) :=
    match s with
    | c :: s' => if (c =? 45)%N then (true, s') else (false, s)
    | [] => (false, s)
    end in
  match s1 with
  | [] => None
  | c :: s2 =>
    let int_part :=
      if (c =? 48)%N then Some ([c], s2)
      else if is_digit c
      then let (d, r) := span_digits s2 in Some (c :: d, r)
      else None in
    match int_part with
    | None => None
    | Some (ip, r) =>
      let '(frac, r1) :=
        match r with
        | dot :: r' =>
          if (dot =? 46)%N then
            match span_digits r' with
            | ([], _) => ([], r)
            | (d, r'') => (dot :: d, r'')
            end
          else ([], r)
        | [] => ([], r)
        end in
      let '(ex, r2) :=
        match r1 with
        | e :: r' =>
          if ((e =? 101) || (e =? 69))%N then
            let '(sg, r'') :=
              match r' with
              | g :: t =>
                if ((g =? 43) || (g =? 45))%N then ([g], t) else ([], r')
              | [] => ([], r')
              end in
            match span_digits r'' with
            | ([], _) => ([], r1)
            | (d, r3) => (e :: sg ++ d, r3)
            end
          else ([], r1)
        | [] => ([], r1)
        end in
      match frac, ex with
      | [], [] =>
        Some (VInt (if neg then - Z_of_digits ip else Z_of_digits ip)%Z, r2)
      | _, _ =>
        Some (VFloat ((if neg then [45%N] else []) ++ ip ++ frac ++ ex), r2)
      end
    end
  end.

Definition expecting_value : pystr := u "Expecting value".
Definition expecting_name : pystr :=
  u "Expecting property name enclosed in double quotes".
Definition expecting_colon : pystr := u "Expecting ':' delimiter".
Definition expecting_comma : pystr := u "Expecting ',' delimiter".

Definition scan_literal (s : pystr) : option (value * pystr) :=
  let after (w : pystr) := skipn (List.length w) s in
  if startswith (u "null") s then Some (VNone, after (u "null"))
  else if startswith (u "true") s then Some (VBool true, after (u "true"))
  else if startswith (u "false") s then Some (VBool false, after (u "false"))
  else if startswith (u "NaN") s then Some (VFloat (u "NaN"), after (u "NaN"))
  else if startswith (u "Infinity") s
  then Some (VFloat (u "Infinity"), after (u "Infinity"))
  else if startswith (u "-Infinity") s
  then Some (VFloat (u "-Infinity"), after (u "-Infinity"))
  else scan_number s.

(** The scanner.  [parse_members] reads the members of an object from
    the quote of a key on, [parse_elems] the elements of an array; a
    repeated key keeps its first place and takes the last value. *)
Fixpoint parse_value (fuel : nat) (s : pystr) : parse (value * pystr) :=
  match fuel with
  | O => inl TooDeep
  | S fuel' =>
    match s with
    | [] => inl (DecodeError expecting_value s)
    | c :: s1 =>
      if (c =? 34)%N then
        match scan_string (S (List.length s1)) s s1 [] with
        | inl e => inl e
        | inr (t, r) => inr (VStr t, r)
        end
      else if (c =? 123)%N then
        match skip_ws s1 with
        | [] => inl (DecodeError expecting_name [])
        | c2 :: s3 =>
          if (c2 =? 125)%N then inr (VDict [], s3)
          else parse_members fuel' (c2 :: s3) []
        end
      else if (c =? 91)%N then
        match skip_ws s1 with
        | [] => inl (DecodeError expecting_value [])
        | c2 :: s3 =>
          if (c2 =? 93)%N then inr (VList [], s3)
          else parse_elems fuel' (c2 :: s3) []
        end
      else
        match scan_literal s with
        | Some r => inr r
        | None => inl (DecodeError expecting_value s)
        end
    end
  end
with parse_members (fuel : nat) (s : pystr) (acc : pydict)
  : parse (value * pystr) :=
  match fuel with
  | O => inl TooDeep
  | S fuel' =>
    match s with
    | [] => inl (DecodeError expecting_name s)
    | q :: s1 =>
      if negb (q =? 34)%N then inl (DecodeError expecting_name s) else
      match scan_string (S (List.length s1)) s s1 [] with
      | inl e => inl e
      | inr (k, s2) =>
        match skip_ws s2 with
        | [] => inl (DecodeError expecting_colon [])
        | c :: s4 =>
          if negb (c =? 58)%N
          then inl (DecodeError expecting_colon (c :: s4)) else
          match parse_value fuel' (skip_ws s4) with
          | inl e => inl e
          | inr (v, s5) =>
            let acc' := dict_set acc k v in
            match skip_ws s5 with
            | [] => inl (DecodeError expecting_comma [])
            | c' :: s7 =>
              if (c' =? 125)%N then inr (VDict acc', s7)
              else if (c' =? 44)%N
              then parse_members fuel' (skip_ws s7) acc'
              else inl (DecodeError expecting_comma (c' :: s7))
            end
          end
        end
      end
    end
  end
with parse_elems (fuel : nat) (s : pystr) (acc : list value)
  : parse (value * pystr) :=
  match fuel with
  | O => inl TooDeep
  | S fuel' =>
    match parse_value fuel' s with
    | inl e => inl e
    | inr (v, s1) =>
      match skip_ws s1 with
      | [] => inl (DecodeError expecting_comma [])
      | c :: s3 =>
        if (c =? 93)%N then inr (VList (rev (v :: acc)), s3)
        else if (c =? 44)%N
        then parse_elems fuel' (skip_ws s3) (v :: acc)
        else inl (DecodeError expecting_comma (c :: s3))
      end
    end
  end.

(** [msg: line L column C (char P)], the text of a [JSONDecodeError]
    found with [rest] left unread of [doc]. *)
Definition errmsg (msg doc rest : pystr) : pystr :=
  let pos := (List.length doc - List.length rest)%nat in
  let before := firstn pos doc in
  let lineno := S (List.length (filter (N.eqb 10) before)) in
  let fix since_newline (s : pystr) (n : nat) : nat :=
    match s with
    | [] => n
    | c :: s' => since_newline s' (if (c =? 10)%N then O else S n)
    end in
  let colno := S (since_newline before O) in
  msg ++ u ": line " ++ str_of_N (N.of_nat lineno)
      ++ u " column " ++ str_of_N (N.of_nat colno)
      ++ u " (char " ++ str_of_N (N.of_nat pos) ++ u ")".

(** [json.loads(v)] *)
Definition json_loads (v : value) : result value :=
  match v with
  | VStr doc =>
    if startswith [65279%N] doc
    then Raise JSONDecodeError
           (errmsg (u "Unexpected UTF-8 BOM (decode using utf-8-sig)") doc doc)
    else
      match parse_value (2 * List.length doc + 2) (skip_ws doc) with
      | inl (DecodeError msg rest) =>
        Raise JSONDecodeError (errmsg msg doc rest)
      | inl TooDeep =>
        Raise RecursionError
              (u "maximum recursion depth exceeded while decoding a JSON document")
      | inr (v, rest) =>
        match skip_ws rest with
        | [] => Ok v
        | rest' => Raise JSONDecodeError (errmsg (u "Extra data") doc rest')
        end
      end
  | _ =>
    Raise TypeError
          (u "the JSON object must be str, bytes or bytearray, not "
             ++ type_name v)
  end.

(** ** [re.match], for the patterns of [parse_delay]

    A backtracking matcher in continuation-passing style.  [RPlus] is
    the greedy [+]; a group appends the text it matched to the list of
    captures when it closes (no group of the patterns below is
    repeated or nested). *)

Inductive regex :=
| RSet (cs : list N)          (* one code point of the set *)
| RCat (r1 r2 : regex)
| RPlus (r : regex)
| RGroup (r : regex).

Definition RChr (c : N) : regex := RSet [c].

(** The greedy loop of [r+]: match [r] once, then prefer another
    round (when the last one consumed text) to going on with [k]. *)
Fixpoint plus_loop (A : Type)
         (step : pystr -> list pystr ->
                 (pystr -> list pystr -> option A) -> option A)
         (k : pystr -> list pystr -> option A)
         (n : nat) (s : pystr) (caps : list pystr) : option A :=
  match n with
  | O => None
  | S n' =>
    step s caps
         (fun s' caps' =>
            let again :=
              if (List.length s' <? List.length s)%nat
              then plus_loop step k n' s' caps' else None in
            match again with
            | Some res => Some res
            | None => k s' caps'
            end)
  end.

Fixpoint rmatch (A : Type) (r : regex) (s : pystr) (caps : list pystr)
         (k : pystr -> list pystr -> option A) : option A :=
  match r with
  | RSet cs =>
    match s with
    | c :: s' => if mem_N c cs then k s' caps else None
    | [] => None
    end
  | RCat r1 r2 =>
    rmatch r1 s caps (fun s' caps' => rmatch r2 s' caps' k)
  | RGroup r1 =>
    rmatch r1 s caps
           (fun s' caps' =>
              k s' (caps' ++ [firstn (List.length s - List.length s') s]))
  | RPlus r1 => plus_loop (rmatch r1) k (S (List.length s)) s caps
  end.

(** [re.match(r, s)]: the groups of the match at the start of [s]. *)
Definition re_match (r : regex) (s : pystr) : option (list pystr) :=
  rmatch r s [] (fun _ caps => Some caps).

(** ** [int(s)] for a [str] *)

(** Digits with single underscores between them. *)
Fixpoint int_digits `{PyRuntime} (s : pystr) (acc : Z) (after_digit : bool)
  : option Z :=
  match s with
  | [] => if after_digit then Some acc else None
  | c :: s' =>
    match unicode_digit c with
    | Some d => int_digits s' (10 * acc + d)%Z true
    | None =>
      if (c =? 95)%N && after_digit then int_digits s' acc false else None
    end
  end.

Definition py_int `{PyRuntime} (s : pystr) : result Z :=
  let body := str_strip s in
  let r :=
    match body with
    | c :: t =>
      if (c =? 45)%N then option_map Z.opp (int_digits t 0%Z false)
      else if (c =? 43)%N then int_digits t 0%Z false
      else int_digits body 0%Z false
    | [] => None
    end in
  match r with
  | Some z => Ok z
  | None =>
    Raise ValueError (u "invalid literal for int() with base 10: " ++ py_repr s)
  end.

(** [x in data], for a [str] [x]. *)
Definition py_eq_str (x : pystr) (v : value) : bool :=
  match v with
  | VStr s => str_eqb x s
  | _ => false
  end.

Definition py_contains (data : value) (x : pystr) : result bool :=
  match data with
  | VDict d => Ok (dict_contains d x)
  | VList l => Ok (existsb (py_eq_str x) l)
  | VStr s => Ok (str_in x s)
  | _ =>
    Raise TypeError
          (u "argument of type '" ++ type_name data ++ u "' is not iterable")
  end.

Definition no_attribute (A : Type) (v : value) (name : string) : result A :=
  Raise AttributeError
        (u "'" ++ type_name v ++ u "' object has no attribute '"
           ++ u name ++ u "'").

(** [v.lower()] *)
Definition py_lower `{PyRuntime} (v : value) : result pystr :=
  match v with
  | VStr s => Ok (str_lower s)
  | _ => no_attribute _ v "lower"
  end.

(** [v.get(k, default)] *)
Definition py_get (v : value) (k : pystr) (default : value) : result value :=
  match v with
  | VDict d =>
    Ok (match dict_get d k with Some x => x | None => default end)
  | _ => no_attribute _ v "get"
  end.

(** [v[k]] for a [str] [k] *)
Definition py_getitem `{PyRuntime} (v : value) (k : pystr) : result value :=
  match v with
  | VDict d =>
    match dict_get d k with
    | Some x => Ok x
    | None => Raise KeyError (py_repr k)
    end
  | VStr _ => Raise TypeError (u "string indices must be integers, not 'str'")
  | VList _ =>
    Raise TypeError (u "list indices must be integers or slices, not str")
  | _ =>
    Raise TypeError (u "'" ++ type_name v ++ u "' object is not subscriptable")
  end.

(** [v[k] = x] for a [str] [k] *)
Definition py_setitem (v : value) (k : pystr) (x : value) : result value :=
  match v with
  | VDict d => Ok (VDict (dict_set d k x))
  | VList _ =>
    Raise TypeError (u "list indices must be integers or slices, not str")
  | _ =>
    Raise TypeError
          (u "'" ++ type_name v ++ u "' object does not support item assignment")
  end.

(** The mapping [**v] unpacks. *)
Definition py_mapping (v : value) : result pydict :=
  match v with
  | VDict d => Ok d
  | _ =>
    Raise TypeError (u "'" ++ type_name v ++ u "' object is not a mapping")
  end.

(** [d.get(key, default)] for a [dict] [d] with [str] keys and any
    [key]: a [list] or a [dict] cannot be hashed, and no other value
    than a [str] equals a key. *)
Definition dict_get_value (d : pydict) (key default : value) : result value :=
  match key with
  | VList _ | VDict _ =>
    Raise TypeError (u "unhashable type: '" ++ type_name key ++ u "'")
  | VStr s => Ok (match dict_get d s with Some x => x | None => default end)
  | _ => Ok default
  end.

(** * main.py *)

(** ** [ALERT_PRIORITY_MAP] *)
Definition ALERT_PRIORITY_MAP : pydict :=
  [ (u "Mechanical Problem", VStr (u "high"));
    (u "Flat Tire", VStr (u "high"));
    (u "Won't Start", VStr (u "high"));
    (u "Accident", VStr (u "high"));
    (u "Heavy Traffic", VStr (u "medium"));
    (u "Weather Conditions", VStr (u "medium"));
    (u "Delayed by School", VStr (u "low"));
    (u "Other", VStr (u "low"));
    (u "Problem Run", VStr (u "low")) ].

(** ** [parse_delay] *)

(** The two patterns are raw strings in which the backslash is
    doubled: [r"(\\d+)[-–](\\d+)"] and [r"(\\d+)"].  To [re] the pair
    [\\] is an escaped backslash, so a group matches a backslash
    followed by one or more letters [d], not a run of digits. *)
Definition backslash_d_plus : regex :=
  RGroup (RCat (RChr 92) (RPlus (RChr (chr "d")))).

Definition range_pattern : regex :=
  RCat backslash_d_plus
       (RCat (RSet [chr "-"; 8211%N]) backslash_d_plus).

Definition single_pattern : regex := backslash_d_plus.

Fixpoint map_int `{PyRuntime} (groups : list pystr) : result (list Z) :=
  match groups with
  | [] => Ok []
  | g :: gs =>
    z <- py_int g ;;
    zs <- map_int gs ;;
    Ok (z :: zs)
  end.

Definition parse_delay `{PyRuntime} (delay_str : value) : result Z :=
  if negb (truthy delay_str) then Ok 0%Z else
  lowered <- py_lower delay_str ;;
  let delay_str := str_strip lowered in
  if str_in (u "hour") delay_str then Ok 60%Z else
  let match_range := re_match range_pattern delay_str in
  let match_single := re_match single_pattern delay_str in
  match match_range with
  | Some groups =>
    ints <- map_int groups ;;
    match ints with
    | [min_d; max_d] => Ok ((min_d + max_d) / 2)%Z
    | _ => Raise ValueError (u "not enough values to unpack")
    end
  | None =>
    match match_single with
    | Some groups => py_int (nth 0 groups [])
    | None => Ok 0%Z
    end
  end.

(** ** [validate_payload] *)

Definition required_fields : list pystr :=
  [u "Busbreakdown ID"; u "Route Number"; u "Reason"].

(** [[f for f in fields if f not in data]] *)
Fixpoint not_in (fields : list pystr) (data : value) : result (list pystr) :=
  match fields with
  | [] => Ok []
  | f :: fields' =>
    present <- py_contains data f ;;
    rest <- not_in fields' data ;;
    Ok (if present then rest else f :: rest)
  end.

Definition missing_fields_text (missing : list pystr) : pystr :=
  u "Missing required fields: " ++ str_join (u ", ") missing.

Definition validate_payload (data : value) : result unit :=
  missing <- not_in required_fields data ;;
  match missing with
  | [] => Ok tt
  | _ :: _ => Raise ValueError (missing_fields_text missing)
  end.

(** ** The outside world of an invocation *)

(** The arguments of [s3.put_object]. *)
Record S3PutObject := {
  Bucket : pystr;
  Key : pystr;
  Body : pystr;
  ContentType : pystr
}.

(** A request sent to a storage collaborator. *)
Inductive call :=
| S3_put_object (req : S3PutObject)
| Table_put_item (table : pystr) (Item : pydict).

(** What an invocation has done so far: how often it read the clock
    and the requests it sent, oldest first. *)
Record State := { clock_reads : nat; calls : list call }.

(** The environment: the two names read from [os.environ] when the
    module is loaded, the clock ([utcnow_isoformat n] is the text of
    [datetime.utcnow().isoformat()] at the [n]-th reading), and the
    collaborators, each of which accepts a request or raises. *)
Record World := {
  RAW_BUCKET : pystr;
  TABLE_NAME : pystr;
  utcnow_isoformat : nat -> pystr;
  s3_put_object : State -> S3PutObject -> option exn;
  table_put_item : State -> pydict -> option exn
}.

(** Computations that read the clock, send requests and may raise; the
    state reached is kept when an exception is raised. *)
Definition M (A : Type) := State -> result A * State.

Definition ret {A} (a : A) : M A := fun st => (Ok a, st).

Definition bind {A B} (m : M A) (f : A -> M B) : M B :=
  fun st =>
    match m st with
    | (inl e, st') => (inl e, st')
    | (inr a, st') => f a st'
    end.

Definition lift {A} (r : result A) : M A := fun st => (r, st).

Notation "x <-- m ;; k" := (bind m (fun x => k))
  (at level 61, m at next level, right associativity, only parsing).

Definition tick (st : State) : State :=
  {| clock_reads := S (clock_reads st); calls := calls st |}.

Definition sent (c : call) (st : State) : State :=
  {| clock_reads := clock_reads st; calls := calls st ++ [c] |}.

Definition utcnow (w : World) : M pystr :=
  fun st => (Ok (utcnow_isoformat w (clock_reads st)), tick st).

Definition send (c : call) (outcome : State -> option exn) : M unit :=
  fun st =>
    match outcome st with
    | Some e => (inl e, sent c st)
    | None => (Ok tt, sent c st)
    end.

Definition put_object (w : World) (req : S3PutObject) : M unit :=
  send (S3_put_object req) (fun st => s3_put_object w st req).

Definition put_item (w : World) (Item : pydict) : M unit :=
  send (Table_put_item (TABLE_NAME w) Item)
       (fun st => table_put_item w st Item).

(** ** [handler] *)

Record Response := { statusCode : Z; body : pystr }.

(** The [try] block. *)
Definition handler_try `{PyRuntime} (w : World) (event context : value)
  : M unit :=
  raw <-- lift (py_getitem event (u "body")) ;;
  body <-- lift (json_loads raw) ;;
  (* Validate *)
  _ <-- lift (validate_payload body) ;;
  (* Save raw payload to S3 *)
  now <-- utcnow w ;;
  let raw_key := now ++ u ".json" in
  _ <-- put_object w {| Bucket := RAW_BUCKET w;
                        Key := raw_key;
                        Body := json_dumps body;
                        ContentType := u "application/json" |} ;;
  (* Transform data *)
  reason <-- lift (py_get body (u "Reason") (VStr (u "Other"))) ;;
  priority <-- lift (dict_get_value ALERT_PRIORITY_MAP reason (VStr (u "low"))) ;;
  body <-- lift (py_setitem body (u "alert_priority") priority) ;;
  delay_str <-- lift (py_get body (u "How Long Delayed") (VStr [])) ;;
  delay <-- lift (parse_delay delay_str) ;;
  body <-- lift (py_setitem body (u "average_delay_minutes") (VInt delay)) ;;
  (* Put transformed data into DynamoDB *)
  route <-- lift (py_getitem body (u "Route Number")) ;;
  now <-- utcnow w ;;
  occurred <-- lift (py_get body (u "Occurred On") (VStr now)) ;;
  rest <-- lift (py_mapping body) ;;
  _ <-- put_item w (dict_update [(u "RouteNumber", route);
                                 (u "OccurredOn", occurred)] rest) ;;
  ret tt.

Definition success_response `{PyRuntime} : Response :=
  {| statusCode := 200;
     body := json_dumps (VDict [(u "message", VStr (u "Processed successfully"))]) |}.

Definition error_response `{PyRuntime} (e : exn) : Response :=
  {| statusCode := 400;
     body := json_dumps (VDict [(u "error", VStr (exn_str e))]) |}.

Definition handler `{PyRuntime} (w : World) (event context : value)
  : State -> Response * State :=
  fun st =>
    match handler_try w event context st with
    | (inr _, st') => (success_response, st')
    | (inl e, st') => (error_response e, st')
    end.

(** ** The phases of the [try] block

    The steps of [handler_try] between two requests, as functions of
    their own; [handler_try_phases] below shows that the block is
    their composition. *)

(** Lines 53 to 56: the body of the event, parsed and validated. *)
Definition receive `{PyRuntime} (event : value) : result value :=
  raw <- py_getitem event (u "body") ;;
  body <- json_loads raw ;;
  _ <- validate_payload body ;;
  Ok body.

(** Lines 59 to 65: the request that archives the payload. *)
Definition archive_request `{PyRuntime} (w : World) (st : State)
           (body : value) : S3PutObject :=
  {| Bucket := RAW_BUCKET w;
     Key := utcnow_isoformat w (clock_reads st) ++ u ".json";
     Body := json_dumps body;
     ContentType := u "application/json" |}.

(** Lines 68 to 70: the payload with the two computed fields. *)
Definition transform `{PyRuntime} (body : value) : result value :=
  reason <- py_get body (u "Reason") (VStr (u "Other")) ;;
  priority <- dict_get_value ALERT_PRIORITY_MAP reason (VStr (u "low")) ;;
  body <- py_setitem body (u "alert_priority") priority ;;
  delay_str <- py_get body (u "How Long Delayed") (VStr []) ;;
  delay <- parse_delay delay_str ;;
  py_setitem body (u "average_delay_minutes") (VInt delay).

(** Lines 73 to 77: the item, from the enriched payload and the second
    reading of the clock. *)
Definition item_keys (route occurred : value) : pydict :=
  [(u "RouteNumber", route); (u "OccurredOn", occurred)].

Definition build_item (body : value) (route : value) (now : pystr)
  : result pydict :=
  occurred <- py_get body (u "Occurred On") (VStr now) ;;
  rest <- py_mapping body ;;
  Ok (dict_update (item_keys route occurred) rest).

(** The payload [d] with the two computed fields. *)
Definition enriched (d : pydict) (priority : value) (delay : Z) : pydict :=
  dict_set (dict_set d (u "alert_priority") priority)
           (u "average_delay_minutes") (VInt delay).

(** [d.get(k, default)] *)
Definition dict_get_default (d : pydict) (k : pystr) (default : value)
  : value :=
  match dict_get d k with Some x => x | None => default end.

(** Patterns without capture group. *)
Fixpoint group_free (r : regex) : bool :=
  match r with
  | RSet _ => true
  | RCat r1 r2 => group_free r1 && group_free r2
  | RPlus r1 => group_free r1
  | RGroup _ => false
  end.

(** The items sent to the table among some requests. *)
Fixpoint persisted (cs : list call) : list pydict :=
  match cs with
  | [] => []
  | Table_put_item _ item :: cs' => item :: persisted cs'
  | S3_put_object _ :: cs' => persisted cs'
  end.

(** The contents sent to the bucket among some requests. *)
Fixpoint archived (cs : list call) : list pystr :=
  match cs with
  | [] => []
  | S3_put_object req :: cs' => Body req :: archived cs'
  | Table_put_item _ _ :: cs' => archived cs'
  end.

(** The required fields a [dict] lacks, in the order of the list. *)
Definition missing_of (d : pydict) : list pystr :=
  filter (fun f => negb (dict_contains d f)) required_fields.

(** A value whose outermost [dict], if it is one, has no repeated key. *)
Definition wf_top (v : value) : Prop :=
  match v with VDict d => NoDup (dict_keys d) | _ => True end.

(** The item of a payload [d] that was enriched with [priority] and
    [delay], persisted after [st]. *)
Definition item_of (w : World) (st : State) (d : pydict)
           (priority : value) (delay : Z) (route : value) : pydict :=
  let d' := enriched d priority delay in
  dict_update
    (item_keys route
               (dict_get_default d' (u "Occurred On")
                  (VStr (utcnow_isoformat w (S (clock_reads st))))))
    d'.

(** How far a run got. *)
Inductive run_of `{PyRuntime} (w : World) (event : value) (st : State)
  : result unit -> State -> Prop :=
| run_rejected e :
    receive event = inl e ->
    run_of w event st (inl e) st
| run_archived body e st' :
    receive event = Ok body ->
    calls st' = calls st ++ [S3_put_object (archive_request w st body)] ->
    (s3_put_object w (tick st) (archive_request w st body) = Some e \/
     s3_put_object w (tick st) (archive_request w st body) = None /\
     (transform body = inl e \/
      exists body', transform body = Ok body' /\
                    (py_getitem body' (u "Route Number") = inl e \/
                     exists route,
                       py_getitem body' (u "Route Number") = Ok route /\
                       build_item body' route
                         (utcnow_isoformat w (S (clock_reads st))) = inl e))) ->
    run_of w event st (inl e) st'
| run_persisted d priority delay route r st' :
    receive event = Ok (VDict d) ->
    s3_put_object w (tick st) (archive_request w st (VDict d)) = None ->
    dict_get_value ALERT_PRIORITY_MAP
      (dict_get_default d (u "Reason") (VStr (u "Other")))
      (VStr (u "low")) = Ok priority ->
    parse_delay (dict_get_default d (u "How Long Delayed") (VStr []))
    = Ok delay ->
    dict_get d (u "Route Number") = Some route ->
    calls st' = calls st ++
                [S3_put_object (archive_request w st (VDict d));
                 Table_put_item (TABLE_NAME w)
                                (item_of w st d priority delay route)] ->
    r = match table_put_item
                w (tick (sent (S3_put_object
                                 (archive_request w st (VDict d))) (tick st)))
                (item_of w st d priority delay route) with
        | Some e => inl e
        | None => Ok tt
        end ->
    run_of w event st r st'.




(** ** A runtime and a world to run examples in *)

(** The runtime restricted to its ASCII tables: exact on ASCII text
    and on payloads without [float]s. *)
#[export] Instance ascii_runtime : PyRuntime.
Proof.
  refine {| str_lower := map ascii_lower;
            unicode_digit := fun c => if (c <? 128)%N then ascii_digit c else None;
            unicode_isprintable := fun _ => true;
            float_is_zero := fun lit => forallb (fun c => negb (is_digit c) || (c =? 48)%N) lit;
            float_repr := fun lit => lit |}.
  - reflexivity.
  - intros c Hc. unfold is_ascii in Hc.
    apply N.ltb_lt in Hc. now rewrite Hc.
Defined.

(** A world whose collaborators accept every request. *)
Definition calm_world : World :=
  {| RAW_BUCKET := u "raw-bucket";
     TABLE_NAME := u "incidents";
     utcnow_isoformat := fun n =>
       u "2024-05-06T07:08:09.00000" ++ str_of_N (N.of_nat n);
     s3_put_object := fun _ _ => None;
     table_put_item := fun _ _ => None |}.

(** A world whose bucket refuses every request, and one whose table
    does. *)
Definition closed_bucket_world : World :=
  {| RAW_BUCKET := u "raw-bucket";
     TABLE_NAME := u "incidents";
     utcnow_isoformat := utcnow_isoformat calm_world;
     s3_put_object := fun _ _ => Some (Exn ServiceError (u "AccessDenied"));
     table_put_item := fun _ _ => None |}.

Definition closed_table_world : World :=
  {| RAW_BUCKET := u "raw-bucket";
     TABLE_NAME := u "incidents";
     utcnow_isoformat := utcnow_isoformat calm_world;
     s3_put_object := fun _ _ => None;
     table_put_item := fun _ _ =>
       Some (Exn ServiceError (u "ResourceNotFoundException")) |}.

Definition initial_state : State := {| clock_reads := 0; calls := [] |}.

(** JSON text written with ['] for the double quote. *)
Definition json_text (s : string) : pystr :=
  map (fun c => if (c =? 39)%N then 34%N else c) (u s).

Definition http_event (body_text : pystr) : value :=
  VDict [(u "body", VStr body_text)].

(** * Properties *)

(** ** Text *)

Lemma str_eqb_eq (a b : pystr) : str_eqb a b = true <-> a = b.
Proof.
  revert b; induction a as [|x a IH]; intros [|y b]; simpl;
    try (split; [discriminate | congruence]); [tauto|].
  rewrite andb_true_iff, N.eqb_eq, IH.
  split; [intros [-> ->]; reflexivity | intros H; inversion H; auto].
Qed.

Lemma str_eqb_refl (a : pystr) : str_eqb a a = true.
Proof. now apply str_eqb_eq. Qed.

Lemma str_eqb_neq (a b : pystr) : a <> b -> str_eqb a b = false.
Proof.
  intros H; destruct (str_eqb a b) eqn:E; [|reflexivity].
  now apply str_eqb_eq in E.
Qed.

Lemma startswith_app (p s : pystr) : startswith p (p ++ s) = true.
Proof. induction p; simpl; [reflexivity|]. now rewrite N.eqb_refl. Qed.

Lemma startswith_inv (p s : pystr) :
  startswith p s = true -> exists post, s = p ++ post.
Proof.
  revert s; induction p as [|x p IH]; intros s H; simpl in *.
  - now exists s.
  - destruct s as [|y s]; [discriminate|].
    apply andb_true_iff in H as [Hx Hp]. apply N.eqb_eq in Hx; subst y.
    destruct (IH _ Hp) as [post ->]. now exists post.
Qed.

Lemma str_in_unfold (needle hay : pystr) :
  str_in needle hay =
  startswith needle hay ||
  match hay with [] => false | _ :: hay' => str_in needle hay' end.
Proof. destruct hay; reflexivity. Qed.

(** [needle in hay] holds exactly when [needle] is an infix of [hay]. *)
Lemma str_in_iff (needle hay : pystr) :
  str_in needle hay = true <-> exists pre post, hay = pre ++ needle ++ post.
Proof.
  split.
  - induction hay as [|c hay IH]; simpl; rewrite orb_true_iff.
    + intros [H|H]; [|discriminate].
      apply startswith_inv in H as [post ->]. now exists [], post.
    + intros [H|H].
      * apply startswith_inv in H as [post H]. now exists [], post.
      * destruct (IH H) as (pre & post & ->). now exists (c :: pre), post.
  - intros (pre & post & ->).
    induction pre as [|c pre IH]; simpl.
    + rewrite str_in_unfold, startswith_app. reflexivity.
    + rewrite IH. apply orb_true_r.
Qed.

(** Every part is an infix of the joined text. *)
Lemma str_join_infix (sep : pystr) (parts : list pystr) (p : pystr) :
  In p parts -> exists pre post, str_join sep parts = pre ++ p ++ post.
Proof.
  induction parts as [|q parts IH]; [intros []|].
  intros [->|Hin].
  - destruct parts as [|q' parts]; simpl.
    + exists [], []. now rewrite app_nil_r.
    + now exists [], (sep ++ str_join sep (q' :: parts)).
  - destruct parts as [|q' parts]; [destruct Hin|].
    destruct (IH Hin) as (pre & post & E).
    exists (q ++ sep ++ pre), post.
    change (str_join sep (q :: q' :: parts))
      with (q ++ sep ++ str_join sep (q' :: parts)).
    rewrite E. now rewrite <- !app_assoc.
Qed.

(** ** Dictionaries *)

Lemma dict_get_set_same (d : pydict) k v : dict_get (dict_set d k v) k = Some v.
Proof.
  induction d as [|[k' v'] d IH]; simpl.
  - now rewrite str_eqb_refl.
  - destruct (str_eqb k' k) eqn:E; simpl; rewrite E; auto.
Qed.

Lemma dict_get_set_other (d : pydict) k v k' :
  k <> k' -> dict_get (dict_set d k v) k' = dict_get d k'.
Proof.
  intros Hne. induction d as [|[k0 v0] d IH]; simpl.
  - now rewrite str_eqb_neq.
  - destruct (str_eqb k0 k) eqn:E; simpl.
    + apply str_eqb_eq in E; subst k0. now rewrite str_eqb_neq.
    + now rewrite IH.
Qed.

Lemma dict_keys_set (d : pydict) k v k' :
  In k' (dict_keys (dict_set d k v)) <-> k' = k \/ In k' (dict_keys d).
Proof.
  unfold dict_keys. induction d as [|[k0 v0] d IH]; simpl.
  - intuition.
  - destruct (str_eqb k0 k) eqn:E; simpl.
    + apply str_eqb_eq in E; subst k0. intuition.
    + rewrite IH. intuition.
Qed.

Lemma dict_set_NoDup (d : pydict) k v :
  NoDup (dict_keys d) -> NoDup (dict_keys (dict_set d k v)).
Proof.
  unfold dict_keys. induction d as [|[k0 v0] d IH]; simpl; intros H.
  - constructor; [intros [] | constructor].
  - inversion H as [|? ? Hnin Hd]; subst.
    destruct (str_eqb k0 k) eqn:E; simpl.
    + now constructor.
    + constructor; [|auto].
      intros Hin. apply (dict_keys_set d k v k0) in Hin as [->|Hin]; auto.
      now rewrite str_eqb_refl in E.
Qed.

Lemma dict_get_None (d : pydict) k :
  dict_get d k = None <-> ~ In k (dict_keys d).
Proof.
  unfold dict_keys. induction d as [|[k0 v0] d IH]; simpl; [tauto|].
  destruct (str_eqb k0 k) eqn:E.
  - apply str_eqb_eq in E. split; [discriminate | intros H; exfalso; auto].
  - rewrite IH. split; [|tauto].
    intros H [->|Hin]; [|auto]. now rewrite str_eqb_refl in E.
Qed.

Lemma dict_get_In (d : pydict) k v :
  dict_get d k = Some v -> In k (dict_keys d).
Proof.
  intros H. destruct (in_dec (list_eq_dec N.eq_dec) k (dict_keys d)); auto.
  apply dict_get_None in n. congruence.
Qed.

(** Lookup after [d.update(other)], for [other] without repeated key. *)
Lemma dict_get_update (d other : pydict) k :
  NoDup (dict_keys other) ->
  dict_get (dict_update d other) k =
  match dict_get other k with
  | Some v => Some v
  | None => dict_get d k
  end.
Proof.
  unfold dict_update. revert d.
  induction other as [|[k0 v0] other IH]; intros d Hnd; simpl; [reflexivity|].
  inversion Hnd as [|? ? Hnin Hnd']; subst.
  rewrite (IH _ Hnd').
  destruct (str_eqb k0 k) eqn:E.
  - apply str_eqb_eq in E; subst k0.
    apply dict_get_None in Hnin. rewrite Hnin. apply dict_get_set_same.
  - destruct (dict_get other k); [reflexivity|].
    apply dict_get_set_other. intros ->. now rewrite str_eqb_refl in E.
Qed.

Lemma dict_keys_update (d other : pydict) k :
  In k (dict_keys (dict_update d other)) <->
  In k (dict_keys d) \/ In k (dict_keys other).
Proof.
  unfold dict_update. revert d.
  induction other as [|[k0 v0] other IH]; intros d; simpl; [tauto|].
  rewrite IH, dict_keys_set. simpl. intuition.
Qed.

(** ** [strip] and [int] on text that starts with a backslash *)

Lemma str_lstrip_keeps_last (s : pystr) (c : N) :
  py_isspace c = false -> exists x, str_lstrip (s ++ [c]) = x ++ [c].
Proof.
  intros Hc. induction s as [|a s IH]; simpl.
  - rewrite Hc. now exists [].
  - destruct (py_isspace a); [exact IH|]. now exists (a :: s).
Qed.

Lemma str_strip_keeps_head (c : N) (t : pystr) :
  py_isspace c = false -> exists t', str_strip (c :: t) = c :: t'.
Proof.
  intros Hc. unfold str_strip. simpl str_lstrip. rewrite Hc. simpl rev.
  destruct (@str_lstrip_keeps_last (rev t) c Hc) as [x ->].
  rewrite rev_app_distr. simpl. now exists (rev x).
Qed.

(** [int] rejects every text that starts with a backslash. *)
Lemma py_int_backslash `{PyRuntime} (t : pystr) :
  py_int (92%N :: t) =
  Raise ValueError
        (u "invalid literal for int() with base 10: " ++ py_repr (92%N :: t)).
Proof.
  unfold py_int.
  destruct (@str_strip_keeps_head 92%N t eq_refl) as [t' ->].
  cbn -[u py_repr].
  rewrite (@unicode_digit_ascii _ 92%N) by reflexivity.
  reflexivity.
Qed.

(** ** The matcher *)

(** A match of a pattern without group hands the captures on unchanged,
    with a suffix of the text no longer than the text. *)
Lemma rmatch_group_free (A : Type) (r : regex) :
  group_free r = true ->
  forall (s : pystr) caps (k : pystr -> list pystr -> option A) res,
    rmatch r s caps k = Some res ->
    exists s', k s' caps = Some res /\ (List.length s' <= List.length s)%nat.
Proof.
  induction r as [cs | r1 IH1 r2 IH2 | r1 IH1 | r1 IH1];
    cbn [group_free rmatch]; intros Hgf.
  - intros [|c s] caps k res H; [discriminate|].
    destruct (mem_N c cs); [|discriminate].
    exists s. split; [exact H | simpl; lia].
  - apply andb_true_iff in Hgf as [H1 H2].
    intros s caps k res H.
    apply (IH1 H1) in H as (s1 & H & L1).
    apply (IH2 H2) in H as (s2 & H & L2).
    exists s2. split; [exact H | lia].
  - intros s caps k res.
    generalize (S (List.length s)) as n.
    intros n; revert s caps.
    induction n as [|n IHn]; intros s caps H; [discriminate|].
    cbn [plus_loop] in H.
    apply (IH1 Hgf) in H as (s1 & H & L1).
    destruct (List.length s1 <? List.length s)%nat.
    + destruct (plus_loop (rmatch r1) k n s1 caps) eqn:E.
      * inversion H; subst. apply IHn in E as (s2 & E & L2).
        exists s2. split; [exact E | lia].
      * exists s1. split; [exact H | exact L1].
    + exists s1. split; [exact H | exact L1].
  - discriminate.
Qed.

Lemma rmatch_set (A : Type) cs s caps (k : pystr -> list pystr -> option A) :
  rmatch (RSet cs) s caps k =
  match s with
  | c :: s' => if mem_N c cs then k s' caps else None
  | [] => None
  end.
Proof. reflexivity. Qed.

Lemma rmatch_cat (A : Type) r1 r2 s caps
      (k : pystr -> list pystr -> option A) :
  rmatch (RCat r1 r2) s caps k =
  rmatch r1 s caps (fun s' caps' => rmatch r2 s' caps' k).
Proof. reflexivity. Qed.

Lemma rmatch_group (A : Type) r s caps (k : pystr -> list pystr -> option A) :
  rmatch (RGroup r) s caps k =
  rmatch r s caps
         (fun s' caps' =>
            k s' (caps' ++ [firstn (List.length s - List.length s') s])).
Proof. reflexivity. Qed.

(** The group [(\\d+)] captures a text that starts with a backslash. *)
Lemma rmatch_backslash_d_plus (A : Type) (s : pystr) caps
      (k : pystr -> list pystr -> option A) res :
  rmatch backslash_d_plus s caps k = Some res ->
  exists g s', k s' (caps ++ [92%N :: g]) = Some res.
Proof.
  unfold backslash_d_plus.
  rewrite rmatch_group, rmatch_cat. unfold RChr at 1. rewrite rmatch_set.
  destruct s as [|c t]; [discriminate|].
  unfold mem_N. cbn [existsb]. rewrite orb_false_r.
  destruct (N.eqb_spec c 92) as [->|]; [|discriminate].
  intros H.
  apply rmatch_group_free in H as (s' & H & L); [|reflexivity].
  cbn [List.length] in H.
  destruct (S (List.length t) - List.length s')%nat as [|n] eqn:E; [lia|].
  cbn [firstn] in H. now exists (firstn n t), s'.
Qed.

Lemma re_match_range_groups (s : pystr) (groups : list pystr) :
  re_match range_pattern s = Some groups ->
  exists g1 g2, groups = [92%N :: g1; 92%N :: g2].
Proof.
  unfold re_match, range_pattern. rewrite rmatch_cat.
  intros H.
  apply rmatch_backslash_d_plus in H as (g1 & s1 & H).
  rewrite rmatch_cat, rmatch_set in H.
  destruct s1 as [|c s1]; [discriminate|].
  destruct (mem_N c [chr "-"; 8211%N]); [|discriminate].
  apply rmatch_backslash_d_plus in H as (g2 & s2 & H).
  inversion H. now exists g1, g2.
Qed.

Lemma re_match_single_groups (s : pystr) (groups : list pystr) :
  re_match single_pattern s = Some groups ->
  exists g, groups = [92%N :: g].
Proof.
  unfold re_match, single_pattern. intros H.
  apply rmatch_backslash_d_plus in H as (g & s1 & H).
  inversion H. now exists g.
Qed.

(** Neither pattern matches a text that does not start with a backslash. *)
Lemma re_match_needs_backslash (s : pystr) :
  startswith [92%N] s = false ->
  re_match range_pattern s = None /\ re_match single_pattern s = None.
Proof.
  intros H. unfold re_match, range_pattern, single_pattern, backslash_d_plus.
  rewrite rmatch_cat, !rmatch_group, !rmatch_cat. unfold RChr.
  rewrite !rmatch_set.
  destruct s as [|c t]; [split; reflexivity|].
  cbn [startswith] in H. rewrite andb_true_r, N.eqb_sym in H.
  unfold mem_N. cbn [existsb]. rewrite orb_false_r, H. now split.
Qed.

(** ** [parse_delay] *)

Section ParseDelay.
Context {rt : PyRuntime}.

(** An empty or absent text gives 0. *)
Lemma parse_delay_falsy (v : value) :
  truthy v = false -> parse_delay v = Ok 0%Z.
Proof. intros H. unfold parse_delay. now rewrite H. Qed.

(** What [parse_delay] does with a non-empty text. *)
Lemma parse_delay_text (s : pystr) :
  s <> [] ->
  parse_delay (VStr s) =
  let text := str_strip (str_lower s) in
  if str_in (u "hour") text then Ok 60%Z else
  match re_match range_pattern text with
  | Some groups =>
    ints <- map_int groups ;;
    match ints with
    | [min_d; max_d] => Ok ((min_d + max_d) / 2)%Z
    | _ => Raise ValueError (u "not enough values to unpack")
    end
  | None =>
    match re_match single_pattern text with
    | Some groups => py_int (nth 0 groups [])
    | None => Ok 0%Z
    end
  end.
Proof. destruct s; [congruence | reflexivity]. Qed.

(** Whenever one of the two patterns matches, [int] raises. *)
Lemma parse_delay_match_raises (text : pystr) :
  (forall groups, re_match range_pattern text = Some groups ->
                  exists e, map_int groups = inl e) /\
  (forall groups, re_match single_pattern text = Some groups ->
                  exists e, py_int (nth 0 groups []) = inl e).
Proof.
  split; intros groups H.
  - apply re_match_range_groups in H as (g1 & g2 & ->).
    cbn [map_int]. rewrite py_int_backslash. eexists; reflexivity.
  - apply re_match_single_groups in H as (g & ->).
    cbn [nth]. rewrite py_int_backslash. eexists; reflexivity.
Qed.

(** The only delays [parse_delay] returns are 0 and 60. *)
Lemma parse_delay_returns (v : value) (n : Z) :
  parse_delay v = Ok n -> n = 0%Z \/ n = 60%Z.
Proof.
  destruct (truthy v) eqn:T.
  2:{ rewrite (parse_delay_falsy _ T). intros H; inversion H; auto. }
  destruct v as [| | | |s| |];
    try (unfold parse_delay; rewrite T; discriminate).
  rewrite parse_delay_text by (destruct s; [discriminate T | discriminate]).
  cbv zeta.
  destruct (str_in _ _); [intros H; inversion H; auto|].
  destruct (parse_delay_match_raises (str_strip (str_lower s))) as [Hr Hs].
  destruct (re_match range_pattern _) as [groups|].
  - destruct (Hr _ eq_refl) as [e ->]. discriminate.
  - destruct (re_match single_pattern _) as [groups|].
    + destruct (Hs _ eq_refl) as [e ->]. discriminate.
    + intros H; inversion H; auto.
Qed.

(** A text that mentions no hour and does not start with a backslash
    (after [lower] and [strip]) gives 0, whatever digits it holds. *)
Lemma parse_delay_without_backslash (s : pystr) :
  let text := str_strip (str_lower s) in
  str_in (u "hour") text = false ->
  startswith [92%N] text = false ->
  parse_delay (VStr s) = Ok 0%Z.
Proof.
  intros text Hh Hb. destruct s as [|c s]; [reflexivity|].
  rewrite parse_delay_text by discriminate. fold text. cbv zeta.
  rewrite Hh. destruct (re_match_needs_backslash _ Hb) as [-> ->].
  reflexivity.
Qed.

(** A truthy value that is not a [str] has no [lower]. *)
Lemma parse_delay_not_str (v : value) :
  truthy v = true -> (forall s, v <> VStr s) ->
  parse_delay v = no_attribute Z v "lower".
Proof.
  intros T Hs. unfold parse_delay. rewrite T.
  destruct v; try reflexivity. now destruct (Hs s).
Qed.

(** [lower] and [strip] of an ASCII text, computed. *)
Lemma lower_strip_ascii (s : pystr) :
  forallb (fun c => c <? 128)%N s = true ->
  str_strip (str_lower s) = str_strip (map ascii_lower s).
Proof.
  intros H. rewrite str_lower_ascii; [reflexivity|].
  apply Forall_forall. intros c Hc.
  rewrite forallb_forall in H. apply N.ltb_lt. now apply H.
Qed.
End ParseDelay.

(** C5: a non-empty text that mentions an hour, in any letter case and
    with any count before it, gives exactly 60. *)
Theorem parse_delay_hour `{PyRuntime} (s : pystr) :
  s <> [] ->
  (exists pre post, str_strip (str_lower s) = pre ++ u "hour" ++ post) ->
  parse_delay (VStr s) = Ok 60%Z.
Proof.
  intros Hs Hh. rewrite parse_delay_text by exact Hs. cbv zeta.
  apply str_in_iff in Hh. now rewrite Hh.
Qed.

Lemma parse_delay_hour_witness :
  u "3 Hours" <> [] /\
  (exists pre post,
      str_strip (@str_lower ascii_runtime (u "3 Hours"))
      = pre ++ u "hour" ++ post) /\
  @parse_delay ascii_runtime (VStr (u "3 Hours")) = Ok 60%Z.
Proof.
  assert (H1 : u "3 Hours" <> []) by (vm_compute; discriminate).
  assert (H2 : exists pre post,
             str_strip (@str_lower ascii_runtime (u "3 Hours"))
             = pre ++ u "hour" ++ post)
    by (exists (u "3 "), (u "s"); vm_compute; reflexivity).
  exact (conj H1 (conj H2 (@parse_delay_hour ascii_runtime _ H1 H2))).
Defined.

(** The hour count is not read, in any runtime. *)
Lemma parse_delay_hours_examples `{PyRuntime} :
  parse_delay (VStr (u "2 hours")) = Ok 60%Z /\
  parse_delay (VStr (u "3 hours")) = Ok 60%Z /\
  parse_delay (VStr (u "  1 HOUR 30 min ")) = Ok 60%Z.
Proof.
  repeat split;
    (rewrite parse_delay_text by (vm_compute; discriminate); cbv zeta;
     rewrite lower_strip_ascii by (vm_compute; reflexivity);
     vm_compute; reflexivity).
Qed.

(** C1, as the code has it: the patterns do not read digits, so a
    range and a single number both give 0 (the claim: 22 and 45). *)
Theorem parse_delay_digits_give_zero `{PyRuntime} :
  parse_delay (VStr (u "15-30 minutes")) = Ok 0%Z /\
  parse_delay (VStr (u "45 minutes")) = Ok 0%Z /\
  parse_delay (VStr (u "about")) = Ok 0%Z /\
  parse_delay (VStr (u "")) = Ok 0%Z.
Proof.
  repeat split; try reflexivity;
    (apply parse_delay_without_backslash;
     rewrite lower_strip_ascii by (vm_compute; reflexivity);
     vm_compute; reflexivity).
Qed.

(** What the patterns do match: a text that starts with a backslash and
    letters [d], on which [int] then raises. *)
Lemma parse_delay_backslash_text_raises `{PyRuntime} :
  parse_delay (VStr (u "\d-\dd min")) =
  Raise ValueError (u "invalid literal for int() with base 10: '\\d'") /\
  parse_delay (VStr (u "\dd min")) =
  Raise ValueError (u "invalid literal for int() with base 10: '\\dd'").
Proof.
  split.
  - rewrite parse_delay_text by (vm_compute; discriminate). cbv zeta.
    rewrite lower_strip_ascii by (vm_compute; reflexivity).
    replace (str_in _ _) with false by (vm_compute; reflexivity).
    replace (re_match range_pattern _)
      with (Some [92%N :: u "d"; 92%N :: u "dd"])
      by (vm_compute; reflexivity).
    cbn [map_int rbind]. rewrite py_int_backslash. vm_compute. reflexivity.
  - rewrite parse_delay_text by (vm_compute; discriminate). cbv zeta.
    rewrite lower_strip_ascii by (vm_compute; reflexivity).
    replace (str_in _ _) with false by (vm_compute; reflexivity).
    replace (re_match range_pattern _) with (@None (list pystr))
      by (vm_compute; reflexivity).
    replace (re_match single_pattern _) with (Some [92%N :: u "dd"])
      by (vm_compute; reflexivity).
    cbn [nth]. rewrite py_int_backslash. vm_compute. reflexivity.
Qed.

(** ** The priority table *)

(** C6: the priority of each reason of the table, and [low] for every
    other reason. *)
Theorem alert_priority_lookup :
  let priority r :=
    dict_get_value ALERT_PRIORITY_MAP (VStr r) (VStr (u "low")) in
  (forall r, In r [u "Mechanical Problem"; u "Flat Tire"; u "Won't Start";
                   u "Accident"] ->
             priority r = Ok (VStr (u "high"))) /\
  (forall r, In r [u "Heavy Traffic"; u "Weather Conditions"] ->
             priority r = Ok (VStr (u "medium"))) /\
  (forall r, In r [u "Delayed by School"; u "Other"; u "Problem Run"] ->
             priority r = Ok (VStr (u "low"))) /\
  (forall r, ~ In r [u "Mechanical Problem"; u "Flat Tire"; u "Won't Start";
                     u "Accident"; u "Heavy Traffic"; u "Weather Conditions";
                     u "Delayed by School"; u "Other"; u "Problem Run"] ->
             priority r = Ok (VStr (u "low"))) /\
  priority (u "Accident") = Ok (VStr (u "high")) /\
  priority (u "Heavy Traffic") = Ok (VStr (u "medium")) /\
  priority (u "Unknown Reason") = Ok (VStr (u "low")).
Proof.
  cbv zeta. repeat split; try (vm_compute; reflexivity).
  - intros r Hr; repeat (destruct Hr as [<-|Hr]; [vm_compute; reflexivity|]);
      destruct Hr.
  - intros r Hr; repeat (destruct Hr as [<-|Hr]; [vm_compute; reflexivity|]);
      destruct Hr.
  - intros r Hr; repeat (destruct Hr as [<-|Hr]; [vm_compute; reflexivity|]);
      destruct Hr.
  - intros r Hr. unfold dict_get_value.
    assert (E : dict_get ALERT_PRIORITY_MAP r = None)
      by (apply dict_get_None; exact Hr).
    now rewrite E.
Qed.

(** Whatever the reason is, a priority that is found is one of the
    three levels. *)
Lemma alert_priority_levels (reason priority : value) :
  dict_get_value ALERT_PRIORITY_MAP reason (VStr (u "low")) = Ok priority ->
  In priority [VStr (u "high"); VStr (u "medium"); VStr (u "low")].
Proof.
  unfold dict_get_value.
  destruct reason as [| | | |r| |]; try discriminate;
    try (intros H; inversion H; simpl; tauto).
  destruct (dict_get ALERT_PRIORITY_MAP r) as [x|] eqn:E;
    intros H; inversion H; subst; [|simpl; tauto].
  unfold ALERT_PRIORITY_MAP in E. cbn [dict_get] in E.
  repeat match type of E with
         | (if ?b then _ else _) = _ =>
           destruct b; [inversion E; simpl; tauto|]
         end.
  discriminate.
Qed.

(** ** [validate_payload] *)

Lemma not_in_dict (fields : list pystr) (d : pydict) :
  not_in fields (VDict d)
  = Ok (filter (fun f => negb (dict_contains d f)) fields).
Proof.
  induction fields as [|f fields IH]; [reflexivity|].
  cbn [not_in py_contains rbind Ok]. rewrite IH. cbn [rbind Ok filter].
  now destruct (dict_contains d f).
Qed.

Lemma validate_payload_dict (d : pydict) :
  validate_payload (VDict d) =
  match missing_of d with
  | [] => Ok tt
  | _ :: _ => Raise ValueError (missing_fields_text (missing_of d))
  end.
Proof.
  unfold validate_payload. rewrite not_in_dict. reflexivity.
Qed.

Lemma missing_of_nil (d : pydict) :
  missing_of d = [] <->
  forall f, In f required_fields -> dict_contains d f = true.
Proof.
  unfold missing_of. split.
  - intros E f Hf. destruct (dict_contains d f) eqn:C; [reflexivity|].
    assert (Hin : In f (filter (fun f => negb (dict_contains d f))
                               required_fields))
      by (apply filter_In; now rewrite C).
    rewrite E in Hin. destruct Hin.
  - intros Hall.
    destruct (filter _ required_fields) as [|f l] eqn:E; [reflexivity|].
    assert (Hin : In f (filter (fun f => negb (dict_contains d f))
                               required_fields))
      by (rewrite E; now left).
    apply filter_In in Hin as [Hf Hc]. rewrite (Hall f Hf) in Hc.
    discriminate.
Qed.

(** ** The [try] block *)

Section Handler.
Context {rt : PyRuntime}.
Variable w : World.

(** The block is the composition of its phases: receive, archive,
    transform, persist.  An exception leaves the requests sent so
    far in the state. *)
Lemma handler_try_phases (event context : value) (st : State) :
  handler_try w event context st =
  match receive event with
  | inl e => (inl e, st)
  | inr body =>
    let req := archive_request w st body in
    let st1 := sent (S3_put_object req) (tick st) in
    match s3_put_object w (tick st) req with
    | Some e => (inl e, st1)
    | None =>
      match transform body with
      | inl e => (inl e, st1)
      | inr body' =>
        match py_getitem body' (u "Route Number") with
        | inl e => (inl e, st1)
        | inr route =>
          match build_item body' route
                           (utcnow_isoformat w (clock_reads st1)) with
          | inl e => (inl e, tick st1)
          | inr item =>
            let st2 := sent (Table_put_item (TABLE_NAME w) item) (tick st1) in
            match table_put_item w (tick st1) item with
            | Some e => (inl e, st2)
            | None => (Ok tt, st2)
            end
          end
        end
      end
    end
  end.
Proof.
  unfold handler_try, receive, transform, build_item, item_keys,
    archive_request, bind, lift, utcnow, put_object, put_item, send, ret, Ok.
  cbv zeta.
  destruct (py_getitem event (u "body")) as [e|raw]; [reflexivity|].
  cbn [rbind].
  destruct (json_loads raw) as [e|body]; [reflexivity|]. cbn [rbind].
  destruct (validate_payload body) as [e|[]]; [reflexivity|]. cbn [rbind].
  destruct (s3_put_object w (tick st) _) as [e|]; [reflexivity|].
  destruct (py_get body (u "Reason") (VStr (u "Other"))) as [e|reason];
    [reflexivity|]. cbn [rbind].
  destruct (dict_get_value ALERT_PRIORITY_MAP reason (VStr (u "low")))
    as [e|priority]; [reflexivity|]. cbn [rbind].
  destruct (py_setitem body (u "alert_priority") priority) as [e|body1];
    [reflexivity|]. cbn [rbind].
  destruct (py_get body1 (u "How Long Delayed") (VStr [])) as [e|delay_str];
    [reflexivity|]. cbn [rbind].
  destruct (parse_delay delay_str) as [e|delay]; [reflexivity|]. cbn [rbind].
  destruct (py_setitem body1 (u "average_delay_minutes") (VInt delay))
    as [e|body2]; [reflexivity|].
  destruct (py_getitem body2 (u "Route Number")) as [e|route];
    [reflexivity|].
  destruct (py_get body2 (u "Occurred On") _) as [e|occurred];
    [reflexivity|]. cbn [rbind].
  destruct (py_mapping body2) as [e|rest]; [reflexivity|]. cbn [rbind].
  destruct (table_put_item w _ _); reflexivity.
Qed.
End Handler.

(** ** The phases on a payload that is a [dict] *)

Section Phases.
Context {rt : PyRuntime}.

Lemma receive_inv (event body : value) :
  receive event = Ok body ->
  exists raw,
    py_getitem event (u "body") = Ok (VStr raw) /\
    json_loads (VStr raw) = Ok body /\
    validate_payload body = Ok tt.
Proof.
  unfold receive.
  destruct (py_getitem event (u "body")) as [e|raw]; [discriminate|].
  cbn [rbind].
  destruct (json_loads raw) as [e|b] eqn:J; [discriminate|]. cbn [rbind].
  destruct (validate_payload b) as [e|[]] eqn:V; [discriminate|].
  cbn [rbind]. intros H; inversion H; subst b.
  destruct raw as [| | | |s| |]; try discriminate J.
  now exists s.
Qed.

Lemma transform_dict (d : pydict) :
  transform (VDict d) =
  priority <- dict_get_value ALERT_PRIORITY_MAP
                (dict_get_default d (u "Reason") (VStr (u "Other")))
                (VStr (u "low")) ;;
  delay <- parse_delay (dict_get_default d (u "How Long Delayed") (VStr [])) ;;
  Ok (VDict (enriched d priority delay)).
Proof.
  unfold transform, enriched, dict_get_default.
  cbn [py_get rbind Ok].
  destruct (dict_get_value _ _ _) as [e|priority]; [reflexivity|].
  cbn [rbind py_setitem py_get Ok].
  rewrite dict_get_set_other by (vm_compute; discriminate).
  reflexivity.
Qed.

(** Only a [dict] can be transformed. *)
Lemma transform_inv (body body' : value) :
  transform body = Ok body' ->
  exists d priority delay,
    body = VDict d /\
    dict_get_value ALERT_PRIORITY_MAP
      (dict_get_default d (u "Reason") (VStr (u "Other")))
      (VStr (u "low")) = Ok priority /\
    parse_delay (dict_get_default d (u "How Long Delayed") (VStr []))
    = Ok delay /\
    body' = VDict (enriched d priority delay).
Proof.
  destruct body as [| | | | | |d]; try discriminate.
  rewrite transform_dict.
  destruct (dict_get_value _ _ _) as [e|priority] eqn:P; [discriminate|].
  cbn [rbind].
  destruct (parse_delay _) as [e|delay] eqn:D; [discriminate|].
  cbn [rbind]. intros H; inversion H.
  now exists d, priority, delay.
Qed.

Lemma build_item_dict (d : pydict) (route : value) (now : pystr) :
  build_item (VDict d) route now =
  Ok (dict_update
        (item_keys route (dict_get_default d (u "Occurred On") (VStr now)))
        d).
Proof. reflexivity. Qed.

Lemma enriched_get (d : pydict) priority delay :
  dict_get (enriched d priority delay) (u "alert_priority") = Some priority /\
  dict_get (enriched d priority delay) (u "average_delay_minutes")
  = Some (VInt delay) /\
  forall k, k <> u "alert_priority" -> k <> u "average_delay_minutes" ->
            dict_get (enriched d priority delay) k = dict_get d k.
Proof.
  unfold enriched. repeat split.
  - rewrite dict_get_set_other by (vm_compute; discriminate).
    apply dict_get_set_same.
  - apply dict_get_set_same.
  - intros k H1 H2. rewrite !dict_get_set_other by congruence. reflexivity.
Qed.

Lemma enriched_NoDup (d : pydict) priority delay :
  NoDup (dict_keys d) -> NoDup (dict_keys (enriched d priority delay)).
Proof. intros H. unfold enriched. now apply dict_set_NoDup, dict_set_NoDup. Qed.
End Phases.

(** ** [json.loads] builds dictionaries without repeated key *)

Lemma scan_number_wf (s : pystr) (v : value) (r : pystr) :
  scan_number s = Some (v, r) -> wf_top v.
Proof.
  unfold scan_number.
  repeat match goal with
         | |- context [match ?x with _ => _ end] => destruct x
         end;
    try discriminate; intros H; inversion H; exact I.
Qed.

Lemma scan_literal_wf (s : pystr) (v : value) (r : pystr) :
  scan_literal s = Some (v, r) -> wf_top v.
Proof.
  unfold scan_literal.
  repeat match goal with
         | |- context [if startswith ?p s then _ else _] =>
           destruct (startswith p s);
             [intros H; inversion H; exact I|]
         end.
  apply scan_number_wf.
Qed.

Lemma parse_members_wf (fuel : nat) :
  forall s acc v rest,
    NoDup (dict_keys acc) ->
    parse_members fuel s acc = inr (v, rest) -> wf_top v.
Proof.
  induction fuel as [|fuel IH]; intros s acc v rest Hacc; [discriminate|].
  cbn [parse_members].
  destruct s as [|q s1]; [discriminate|].
  destruct (negb (q =? 34)%N); [discriminate|].
  destruct (scan_string _ _ _ _) as [e|[k s2]]; [discriminate|].
  destruct (skip_ws s2) as [|c s4]; [discriminate|].
  destruct (negb (c =? 58)%N); [discriminate|].
  destruct (parse_value fuel (skip_ws s4)) as [e|[x s5]]; [discriminate|].
  destruct (skip_ws s5) as [|c' s7]; [discriminate|].
  destruct (c' =? 125)%N.
  - intros H; inversion H; subst. now apply dict_set_NoDup.
  - destruct (c' =? 44)%N; [|discriminate].
    apply IH. now apply dict_set_NoDup.
Qed.

Lemma parse_elems_wf (fuel : nat) :
  forall s acc v rest, parse_elems fuel s acc = inr (v, rest) -> wf_top v.
Proof.
  induction fuel as [|fuel IH]; intros s acc v rest; [discriminate|].
  cbn [parse_elems].
  destruct (parse_value fuel s) as [e|[x s1]]; [discriminate|].
  destruct (skip_ws s1) as [|c s3]; [discriminate|].
  destruct (c =? 93)%N; [intros H; inversion H; exact I|].
  destruct (c =? 44)%N; [|discriminate].
  apply IH.
Qed.

Lemma parse_value_wf (fuel : nat) (s : pystr) (v : value) (rest : pystr) :
  parse_value fuel s = inr (v, rest) -> wf_top v.
Proof.
  destruct fuel as [|fuel]; [discriminate|].
  cbn [parse_value].
  destruct s as [|c s1]; [discriminate|].
  destruct (c =? 34)%N.
  { destruct (scan_string _ _ _ _) as [e|[t r]]; [discriminate|].
    intros H; inversion H; exact I. }
  destruct (c =? 123)%N.
  { destruct (skip_ws s1) as [|c2 s3]; [discriminate|].
    destruct (c2 =? 125)%N.
    - intros H; inversion H; constructor.
    - apply parse_members_wf. constructor. }
  destruct (c =? 91)%N.
  { destruct (skip_ws s1) as [|c2 s3]; [discriminate|].
    destruct (c2 =? 93)%N.
    - intros H; inversion H; exact I.
    - apply parse_elems_wf. }
  destruct (scan_literal (c :: s1)) as [[x r]|] eqn:E; [|discriminate].
  intros H; inversion H; subst. exact (scan_literal_wf _ E).
Qed.

(** A [dict] that [json.loads] returns has no repeated key. *)
Lemma json_loads_NoDup (raw : value) (d : pydict) :
  json_loads raw = Ok (VDict d) -> NoDup (dict_keys d).
Proof.
  unfold json_loads.
  destruct raw as [| | | |doc| |]; try discriminate.
  destruct (startswith _ doc); [discriminate|].
  destruct (parse_value _ _) as [[msg r|]|[v r]] eqn:E; try discriminate.
  destruct (skip_ws r); [|discriminate].
  intros H; inversion H; subst.
  exact (parse_value_wf _ _ E).
Qed.

(** ** Runs of the handler *)

Section Runs.
Context {rt : PyRuntime}.
Variable w : World.

Lemma handler_try_run (event context : value) (st : State) :
  run_of w event st (fst (handler_try w event context st))
         (snd (handler_try w event context st)).
Proof.
  rewrite handler_try_phases.
  destruct (receive event) as [e|body] eqn:R; [now apply run_rejected|].
  cbv zeta.
  destruct (s3_put_object w (tick st) _) as [e|] eqn:S3.
  { eapply run_archived; eauto. }
  destruct (transform body) as [e|body'] eqn:T.
  { eapply run_archived; eauto. }
  destruct (py_getitem body' (u "Route Number")) as [e|route] eqn:G.
  { eapply run_archived; eauto 8. }
  destruct (transform_inv _ T) as (d & priority & delay & -> & P & D & ->).
  rewrite build_item_dict. cbv beta iota zeta delta [Ok].
  cbn [py_getitem] in G.
  destruct (dict_get (enriched d priority delay) (u "Route Number"))
    as [x|] eqn:Gd; [|discriminate].
  inversion G; subst x.
  assert (Gd' : dict_get d (u "Route Number") = Some route).
  { rewrite <- Gd. symmetry. apply enriched_get; vm_compute; discriminate. }
  destruct (table_put_item w _ _) as [e|] eqn:Tb; cbn [fst snd];
    (eapply run_persisted; eauto;
     [ cbn [sent tick calls clock_reads]; rewrite <- app_assoc; reflexivity
     | unfold item_of; cbv zeta;
       cbn [sent tick clock_reads calls] in *; now rewrite Tb ]).
Qed.
End Runs.

(** ** The responses *)

Lemma handler_status `{PyRuntime} (w : World) (event context : value)
      (st : State) :
  (statusCode (fst (handler w event context st)) = 200%Z <->
   fst (handler_try w event context st) = Ok tt) /\
  (statusCode (fst (handler w event context st)) = 400%Z <->
   exists e, fst (handler_try w event context st) = inl e) /\
  snd (handler w event context st) = snd (handler_try w event context st).
Proof.
  unfold handler.
  destruct (handler_try w event context st) as [[e|[]] st']; cbn.
  - repeat split; try discriminate; eauto.
  - repeat split; try discriminate; intros [e E]; discriminate.
Qed.

(** C7: the handler returns a response for every event, in every
    world: 200 with the success message when the [try] block ends, 400
    with the text of the exception when it raises, and nothing else;
    the response to a failure depends on the text of the exception
    only, not on the step that raised it. *)
Theorem handler_never_raises `{PyRuntime} (w : World) (event context : value)
        (st : State) :
  let resp := fst (handler w event context st) in
  match fst (handler_try w event context st) with
  | inr _ =>
    resp = {| statusCode := 200;
              body := json_dumps
                        (VDict [(u "message",
                                 VStr (u "Processed successfully"))]) |}
  | inl e =>
    resp = {| statusCode := 400;
              body := json_dumps (VDict [(u "error", VStr (exn_str e))]) |}
  end /\
  (statusCode resp = 200%Z \/ statusCode resp = 400%Z) /\
  (forall e1 e2, exn_str e1 = exn_str e2 ->
                 error_response e1 = error_response e2).
Proof.
  cbv zeta. unfold handler.
  destruct (handler_try w event context st) as [[e|[]] st']; cbn [fst].
  - repeat split; [now right|].
    intros e1 e2 E. unfold error_response. now rewrite E.
  - repeat split; [now left|].
    intros e1 e2 E. unfold error_response. now rewrite E.
Qed.

(** The two bodies, as text. *)
Lemma response_bodies `{PyRuntime} :
  body success_response = json_text "{'message': 'Processed successfully'}" /\
  body (error_response (Exn ValueError (u "Missing required fields: Reason")))
  = json_text "{'error': 'Missing required fields: Reason'}".
Proof. split; vm_compute; reflexivity. Qed.

(** A failed validation and a refused request are answered alike. *)
Lemma failures_answered_alike `{PyRuntime} (w : World)
      (event context : value) (st : State) (e : exn) :
  (receive event = inl e ->
   handler w event context st = (error_response e, st)) /\
  (forall body,
      receive event = Ok body ->
      s3_put_object w (tick st) (archive_request w st body) = Some e ->
      fst (handler w event context st) = error_response e).
Proof.
  unfold handler. rewrite handler_try_phases. split.
  - intros ->. reflexivity.
  - intros body -> S3. cbv beta iota zeta delta [Ok]. now rewrite S3.
Qed.

(** ** The archive *)

(** C3, as the code has it: on success the content sent to the bucket
    is [json.dumps] of the parsed body, under the name made of the
    first reading of the clock. *)
Theorem archive_is_reserialised_body `{PyRuntime} (w : World)
        (event context : value) (st : State) :
  statusCode (fst (handler w event context st)) = 200%Z ->
  exists raw parsed item,
    py_getitem event (u "body") = Ok (VStr raw) /\
    json_loads (VStr raw) = Ok parsed /\
    calls (snd (handler w event context st)) =
    calls st ++
    [S3_put_object {| Bucket := RAW_BUCKET w;
                      Key := utcnow_isoformat w (clock_reads st) ++ u ".json";
                      Body := json_dumps parsed;
                      ContentType := u "application/json" |};
     Table_put_item (TABLE_NAME w) item].
Proof.
  intros H200.
  destruct (handler_status w event context st) as (S200 & _ & Hsnd).
  apply S200 in H200. rewrite Hsnd.
  pose proof (handler_try_run w event context st) as Hrun.
  rewrite H200 in Hrun.
  inversion Hrun as [ | | d priority delay route r st' R S3 P D G C Hr]; subst.
  destruct (receive_inv _ R) as (raw & B & J & V).
  exists raw, (VDict d), (item_of w st d priority delay route).
  repeat split; assumption.
Qed.

Lemma archive_is_reserialised_body_witness :
  exists raw parsed item,
    py_getitem (http_event (json_text "{'Busbreakdown ID':1,'Route Number':'12','Reason':'Other'}"))
               (u "body") = Ok (VStr raw) /\
    json_loads (VStr raw) = Ok parsed /\
    calls (snd (@handler ascii_runtime calm_world
                         (http_event (json_text "{'Busbreakdown ID':1,'Route Number':'12','Reason':'Other'}"))
                         VNone initial_state)) =
    calls initial_state ++
    [S3_put_object {| Bucket := RAW_BUCKET calm_world;
                      Key := utcnow_isoformat calm_world
                               (clock_reads initial_state) ++ u ".json";
                      Body := @json_dumps ascii_runtime parsed;
                      ContentType := u "application/json" |};
     Table_put_item (TABLE_NAME calm_world) item].
Proof.
  apply (@archive_is_reserialised_body ascii_runtime calm_world).
  vm_compute. reflexivity.
Defined.

(** C3, as the claim has it, fails: a body written without spaces is
    archived with them. *)
Lemma archive_is_not_the_raw_body :
  let raw :=
    json_text "{'Busbreakdown ID':1,'Route Number':'12','Reason':'Flat Tire'}" in
  let run :=
    @handler ascii_runtime calm_world (http_event raw) VNone initial_state in
  statusCode (fst run) = 200%Z /\
  archived (calls (snd run)) =
  [json_text "{'Busbreakdown ID': 1, 'Route Number': '12', 'Reason': 'Flat Tire'}"] /\
  archived (calls (snd run)) <> [raw].
Proof.
  cbv zeta. repeat split; try (vm_compute; reflexivity).
  vm_compute. discriminate.
Qed.

(** ** The persisted item *)

Section Item.
Context {rt : PyRuntime}.
Variable w : World.

Lemma receive_NoDup (event : value) (d : pydict) :
  receive event = Ok (VDict d) -> NoDup (dict_keys d).
Proof.
  intros R. destruct (receive_inv _ R) as (raw & _ & J & _).
  exact (json_loads_NoDup _ J).
Qed.

(** The item holds the enriched payload; the two key fields are
    taken from the payload when it has fields of these names. *)
Lemma item_of_get (st : State) (d : pydict) priority delay route k :
  NoDup (dict_keys d) ->
  dict_get (item_of w st d priority delay route) k =
  match dict_get (enriched d priority delay) k with
  | Some v => Some v
  | None =>
    dict_get
      (item_keys route
         (dict_get_default (enriched d priority delay) (u "Occurred On")
            (VStr (utcnow_isoformat w (S (clock_reads st)))))) k
  end.
Proof.
  intros Hnd. unfold item_of. cbv zeta.
  apply dict_get_update. now apply enriched_NoDup.
Qed.

Lemma item_of_keys (st : State) (d : pydict) priority delay route k :
  In k (dict_keys (item_of w st d priority delay route)) ->
  In k (dict_keys d) \/
  In k [u "alert_priority"; u "average_delay_minutes";
        u "RouteNumber"; u "OccurredOn"].
Proof.
  unfold item_of, enriched. cbv zeta.
  rewrite dict_keys_update, !dict_keys_set.
  cbn [item_keys dict_keys map fst In]. intuition.
Qed.

(** The requests a run adds to the state. *)
Lemma run_of_calls (event : value) (st st' : State) (r : result unit) :
  run_of w event st r st' ->
  calls st' = calls st \/
  (exists body,
      receive event = Ok body /\
      calls st' = calls st ++ [S3_put_object (archive_request w st body)]) \/
  (exists d priority delay route,
      receive event = Ok (VDict d) /\
      dict_get_value ALERT_PRIORITY_MAP
        (dict_get_default d (u "Reason") (VStr (u "Other")))
        (VStr (u "low")) = Ok priority /\
      parse_delay (dict_get_default d (u "How Long Delayed") (VStr []))
      = Ok delay /\
      calls st' = calls st ++
                  [S3_put_object (archive_request w st (VDict d));
                   Table_put_item (TABLE_NAME w)
                                  (item_of w st d priority delay route)]).
Proof.
  intros [e R | body e st1 R C _ | d priority delay route r1 st1 R S3 P D G C Hr].
  - now left.
  - right; left. now exists body.
  - right; right. now exists d, priority, delay, route.
Qed.
End Item.

(** C8: an item sent to the table has one of the three priorities
    and a delay that is an integer, not negative. *)
Theorem persisted_item_invariant `{PyRuntime} (w : World)
        (event context : value) (st : State) (new : list call) (item : pydict) :
  calls (snd (handler w event context st)) = calls st ++ new ->
  In item (persisted new) ->
  (exists p, dict_get item (u "alert_priority") = Some (VStr p) /\
             In p [u "high"; u "medium"; u "low"]) /\
  (exists n, dict_get item (u "average_delay_minutes") = Some (VInt n) /\
             (0 <= n)%Z).
Proof.
  intros Hcalls Hin.
  destruct (handler_status w event context st) as (_ & _ & Hsnd).
  rewrite Hsnd in Hcalls.
  destruct (run_of_calls (handler_try_run w event context st))
    as [C | [(body & R & C) | (d & priority & delay & route & R & P & D & C)]];
    rewrite C in Hcalls.
  - rewrite <- (app_nil_r (calls st)) in Hcalls at 1.
    apply app_inv_head in Hcalls. subst new. destruct Hin.
  - apply app_inv_head in Hcalls. subst new. destruct Hin.
  - apply app_inv_head in Hcalls. subst new.
    destruct Hin as [<-|[]].
    pose proof (receive_NoDup _ R) as Hnd.
    destruct (enriched_get d priority delay) as (Ea & Ed & _).
    split.
    + rewrite item_of_get, Ea by exact Hnd.
      apply alert_priority_levels in P.
      destruct P as [<-|[<-|[<-|[]]]]; eexists; (split; [reflexivity|]);
        simpl; tauto.
    + rewrite item_of_get, Ed by exact Hnd.
      exists delay. split; [reflexivity|].
      apply parse_delay_returns in D. lia.
Qed.

Lemma persisted_item_invariant_witness :
  let event :=
    http_event (json_text "{'Busbreakdown ID': 7, 'Route Number': 'B41', 'Reason': 'Heavy Traffic', 'How Long Delayed': 'one hour'}") in
  let run := @handler ascii_runtime calm_world event VNone initial_state in
  let item := hd [] (persisted (calls (snd run))) in
  In item (persisted (calls (snd run))) /\
  (exists p, dict_get item (u "alert_priority") = Some (VStr p) /\
             In p [u "high"; u "medium"; u "low"]) /\
  (exists n, dict_get item (u "average_delay_minutes") = Some (VInt n) /\
             (0 <= n)%Z).
Proof.
  intros event run item.
  assert (Hin : In item (persisted (calls (snd run))))
    by (vm_compute; left; reflexivity).
  split; [exact Hin|].
  exact (@persisted_item_invariant ascii_runtime calm_world event VNone
           initial_state (calls (snd run)) item eq_refl Hin).
Defined.

(** C9, as the code has it: on success every field of the parsed body
    other than [alert_priority] and [average_delay_minutes] is in the
    item with its value; these two hold the computed values; and the
    item has no other keys than those of the body and the four added
    ones. *)
Theorem payload_fields_pass_through `{PyRuntime} (w : World)
        (event context : value) (st : State) :
  statusCode (fst (handler w event context st)) = 200%Z ->
  exists raw d item request,
    py_getitem event (u "body") = Ok (VStr raw) /\
    json_loads (VStr raw) = Ok (VDict d) /\
    calls (snd (handler w event context st)) =
    calls st ++ [S3_put_object request; Table_put_item (TABLE_NAME w) item] /\
    (forall k v, dict_get d k = Some v ->
                 k <> u "alert_priority" -> k <> u "average_delay_minutes" ->
                 dict_get item k = Some v) /\
    (forall k, In k (dict_keys item) ->
               In k (dict_keys d) \/
               In k [u "alert_priority"; u "average_delay_minutes";
                     u "RouteNumber"; u "OccurredOn"]) /\
    dict_get item (u "alert_priority") =
    match dict_get_value ALERT_PRIORITY_MAP
            (dict_get_default d (u "Reason") (VStr (u "Other")))
            (VStr (u "low")) with
    | inr p => Some p
    | inl _ => None
    end /\
    dict_get item (u "average_delay_minutes") =
    match parse_delay (dict_get_default d (u "How Long Delayed") (VStr [])) with
    | inr n => Some (VInt n)
    | inl _ => None
    end.
Proof.
  intros H200.
  destruct (handler_status w event context st) as (S200 & _ & Hsnd).
  apply S200 in H200. rewrite Hsnd.
  pose proof (handler_try_run w event context st) as Hrun.
  rewrite H200 in Hrun.
  inversion Hrun as [ | | d priority delay route r st' R S3 P D G C Hr]; subst.
  destruct (receive_inv _ R) as (raw & B & J & V).
  pose proof (receive_NoDup _ R) as Hnd.
  destruct (enriched_get d priority delay) as (Ea & Ed & Eo).
  exists raw, d, (item_of w st d priority delay route),
    (archive_request w st (VDict d)).
  repeat split; try assumption.
  - intros k v Hk Ha Hd.
    rewrite item_of_get, (Eo k Ha Hd), Hk by exact Hnd. reflexivity.
  - apply item_of_keys.
  - rewrite item_of_get, Ea, P by exact Hnd. reflexivity.
  - rewrite item_of_get, Ed, D by exact Hnd. reflexivity.
Qed.

Lemma payload_fields_pass_through_witness :
  let event :=
    http_event (json_text "{'Busbreakdown ID': 7, 'Route Number': 'B41', 'Reason': 'Other', 'Boro': 'Queens', 'RouteNumber': 3}") in
  statusCode (fst (@handler ascii_runtime calm_world event VNone initial_state))
  = 200%Z /\
  exists raw d item request,
    py_getitem event (u "body") = Ok (VStr raw) /\
    json_loads (VStr raw) = Ok (VDict d) /\
    calls (snd (@handler ascii_runtime calm_world event VNone initial_state)) =
    calls initial_state ++
    [S3_put_object request; Table_put_item (TABLE_NAME calm_world) item] /\
    (forall k v, dict_get d k = Some v ->
                 k <> u "alert_priority" -> k <> u "average_delay_minutes" ->
                 dict_get item k = Some v) /\
    (forall k, In k (dict_keys item) ->
               In k (dict_keys d) \/
               In k [u "alert_priority"; u "average_delay_minutes";
                     u "RouteNumber"; u "OccurredOn"]) /\
    dict_get item (u "alert_priority") =
    match dict_get_value ALERT_PRIORITY_MAP
            (dict_get_default d (u "Reason") (VStr (u "Other")))
            (VStr (u "low")) with
    | inr p => Some p
    | inl _ => None
    end /\
    dict_get item (u "average_delay_minutes") =
    match @parse_delay ascii_runtime
            (dict_get_default d (u "How Long Delayed") (VStr [])) with
    | inr n => Some (VInt n)
    | inl _ => None
    end.
Proof.
  intros event.
  assert (H200 : statusCode
                   (fst (@handler ascii_runtime calm_world event VNone
                                  initial_state)) = 200%Z)
    by (vm_compute; reflexivity).
  split; [exact H200|].
  exact (@payload_fields_pass_through ascii_runtime calm_world event VNone
           initial_state H200).
Defined.

(** C9, as the claim has it, fails: a field of the body named
    [alert_priority] is replaced by the computed priority. *)
Lemma computed_fields_replace_input_fields :
  let raw :=
    json_text "{'Busbreakdown ID': 1, 'Route Number': '12', 'Reason': 'Flat Tire', 'alert_priority': 'none'}" in
  let run :=
    @handler ascii_runtime calm_world (http_event raw) VNone initial_state in
  statusCode (fst run) = 200%Z /\
  exists d item,
    json_loads (VStr raw) = Ok (VDict d) /\
    persisted (calls (snd run)) = [item] /\
    dict_get d (u "alert_priority") = Some (VStr (u "none")) /\
    dict_get item (u "alert_priority") = Some (VStr (u "high")) /\
    dict_get item (u "alert_priority") <> dict_get d (u "alert_priority").
Proof.
  cbv zeta. split; [vm_compute; reflexivity|].
  eexists (match json_loads (VStr (json_text "{'Busbreakdown ID': 1, 'Route Number': '12', 'Reason': 'Flat Tire', 'alert_priority': 'none'}")) with
           | inr (VDict d) => d
           | _ => []
           end),
  (hd [] (persisted (calls (snd (@handler ascii_runtime calm_world
            (http_event (json_text "{'Busbreakdown ID': 1, 'Route Number': '12', 'Reason': 'Flat Tire', 'alert_priority': 'none'}"))
            VNone initial_state))))).
  repeat split; try (vm_compute; reflexivity).
  vm_compute. discriminate.
Qed.

(** ** A delay that is not a text *)

(** C10: a valid body whose [How Long Delayed] is truthy and not a
    [str] is archived and answered with 400; nothing is sent to the
    table.  When the bucket accepts the archive and the reason can be
    looked up, the error is that of [lower]. *)
Theorem delay_of_other_type_is_rejected `{PyRuntime} (w : World)
        (event context : value) (st : State) (d : pydict) (v : value) :
  receive event = Ok (VDict d) ->
  dict_get d (u "How Long Delayed") = Some v ->
  (forall s, v <> VStr s) ->
  truthy v = true ->
  statusCode (fst (handler w event context st)) = 400%Z /\
  calls (snd (handler w event context st)) =
  calls st ++ [S3_put_object (archive_request w st (VDict d))] /\
  (s3_put_object w (tick st) (archive_request w st (VDict d)) = None ->
   (exists p, dict_get_value ALERT_PRIORITY_MAP
                (dict_get_default d (u "Reason") (VStr (u "Other")))
                (VStr (u "low")) = Ok p) ->
   fst (handler w event context st) =
   error_response
     (Exn AttributeError
          (u "'" ++ type_name v ++ u "' object has no attribute 'lower'"))).
Proof.
  intros R G Hs T.
  assert (Tr : exists e, transform (VDict d) = inl e /\
                         ((exists p, dict_get_value ALERT_PRIORITY_MAP
                                       (dict_get_default d (u "Reason")
                                                         (VStr (u "Other")))
                                       (VStr (u "low")) = Ok p) ->
                          e = Exn AttributeError
                                  (u "'" ++ type_name v
                                     ++ u "' object has no attribute 'lower'"))).
  { rewrite transform_dict.
    destruct (dict_get_value _ _ _) as [e|p]; cbn [rbind].
    - exists e. split; [reflexivity|]. intros [p E]; discriminate.
    - unfold dict_get_default at 1. rewrite G.
      rewrite (@parse_delay_not_str _ v T Hs). cbn [rbind no_attribute Raise].
      eexists. split; reflexivity || (intros _; reflexivity). }
  destruct Tr as (e & Tr & He).
  unfold handler. rewrite handler_try_phases, R.
  cbv beta iota zeta delta [Ok].
  destruct (s3_put_object w (tick st) _) as [e'|] eqn:S3; cbn [fst snd].
  - repeat split; [discriminate].
  - rewrite Tr. cbn [fst snd]. repeat split.
    intros _ Hp. now rewrite (He Hp).
Qed.

Lemma delay_of_other_type_is_rejected_witness :
  let event :=
    http_event (json_text "{'Busbreakdown ID': 1, 'Route Number': '12', 'Reason': 'Flat Tire', 'How Long Delayed': 45}") in
  let run := @handler ascii_runtime calm_world event VNone initial_state in
  exists d,
    @receive ascii_runtime event = Ok (VDict d) /\
    dict_get d (u "How Long Delayed") = Some (VInt 45) /\
    statusCode (fst run) = 400%Z /\
    calls (snd run) =
    calls initial_state ++
    [S3_put_object (@archive_request ascii_runtime calm_world initial_state
                                     (VDict d))] /\
    fst run =
    @error_response ascii_runtime
      (Exn AttributeError (u "'int' object has no attribute 'lower'")).
Proof.
  intros event run.
  pose (d := match @receive ascii_runtime event with
             | inr (VDict d) => d
             | _ => []
             end).
  assert (R : @receive ascii_runtime event = Ok (VDict d))
    by (vm_compute; reflexivity).
  assert (G : dict_get d (u "How Long Delayed") = Some (VInt 45))
    by (vm_compute; reflexivity).
  assert (Hs : forall s, VInt 45 <> VStr s) by discriminate.
  destruct (@delay_of_other_type_is_rejected ascii_runtime calm_world event
              VNone initial_state d (VInt 45) R G Hs eq_refl)
    as (H400 & Hcalls & _).
  exists d. split; [exact R|]. split; [exact G|].
  split; [exact H400|]. split; [exact Hcalls|].
  vm_compute. reflexivity.
Defined.

(** ** Missing fields *)

Lemma missing_of_In (d : pydict) (f : pystr) :
  In f (missing_of d) <-> In f required_fields /\ dict_contains d f = false.
Proof.
  unfold missing_of. rewrite filter_In, negb_true_iff. reflexivity.
Qed.

(** C4: validation of a parsed payload fails exactly when a required
    field is absent, and then the handler answers 400 with a text that
    names every absent field, before any request is sent. *)
Theorem missing_fields_are_listed `{PyRuntime} (w : World)
        (event context : value) (st : State) (raw : value) (d : pydict) :
  py_getitem event (u "body") = Ok raw ->
  json_loads raw = Ok (VDict d) ->
  (validate_payload (VDict d) = Ok tt <->
   forall f, In f required_fields -> dict_contains d f = true) /\
  ((exists e, validate_payload (VDict d) = inl e) <->
   exists f, In f required_fields /\ dict_contains d f = false) /\
  ((exists f, In f required_fields /\ dict_contains d f = false) ->
   handler w event context st =
   (error_response (Exn ValueError (missing_fields_text (missing_of d))), st) /\
   statusCode (fst (handler w event context st)) = 400%Z /\
   forall f, In f required_fields -> dict_contains d f = false ->
             exists pre post,
               missing_fields_text (missing_of d) = pre ++ f ++ post).
Proof.
  intros B J.
  assert (Hsome : (exists f, In f required_fields /\ dict_contains d f = false)
                  <-> missing_of d <> []).
  { split.
    - intros (f & Hf & Hc) E. apply missing_of_nil with (f := f) in E; auto.
      congruence.
    - intros Hne. destruct (missing_of d) as [|f l] eqn:E; [congruence|].
      exists f. apply missing_of_In. rewrite E. now left. }
  split; [|split].
  - rewrite validate_payload_dict, <- missing_of_nil.
    destruct (missing_of d); split; congruence || discriminate.
  - rewrite Hsome, validate_payload_dict.
    destruct (missing_of d); split.
    + intros [e E]; discriminate.
    + congruence.
    + discriminate.
    + intros _. eexists; reflexivity.
  - intros Habs. apply Hsome in Habs.
    assert (R : receive event
                = inl (Exn ValueError (missing_fields_text (missing_of d)))).
    { unfold receive. rewrite B. cbn [rbind Ok]. rewrite J. cbn [rbind Ok].
      rewrite validate_payload_dict.
      destruct (missing_of d); [congruence | reflexivity]. }
    assert (E : handler w event context st =
                (error_response
                   (Exn ValueError (missing_fields_text (missing_of d))), st)).
    { unfold handler. rewrite handler_try_phases, R. reflexivity. }
    split; [exact E|]. split; [rewrite E; reflexivity|].
    intros f Hf Hc.
    destruct (@str_join_infix (u ", ") (missing_of d) f) as (pre & post & Ej).
    { apply missing_of_In. now split. }
    exists (u "Missing required fields: " ++ pre), post.
    unfold missing_fields_text. rewrite Ej. now rewrite <- app_assoc.
Qed.

Lemma missing_fields_are_listed_witness :
  let raw := json_text "{'Busbreakdown ID': 1, 'Boro': 'Bronx'}" in
  let event := http_event raw in
  exists d,
    @py_getitem ascii_runtime event (u "body") = Ok (VStr raw) /\
    json_loads (VStr raw) = Ok (VDict d) /\
    @handler ascii_runtime calm_world event VNone initial_state =
    (@error_response ascii_runtime
       (Exn ValueError (u "Missing required fields: Route Number, Reason")),
     initial_state) /\
    (forall f, In f required_fields -> dict_contains d f = false ->
               exists pre post,
                 u "Missing required fields: Route Number, Reason"
                 = pre ++ f ++ post).
Proof.
  intros raw event.
  pose (d := match json_loads (VStr raw) with
             | inr (VDict d) => d
             | _ => []
             end).
  assert (B : @py_getitem ascii_runtime event (u "body") = Ok (VStr raw))
    by (vm_compute; reflexivity).
  assert (J : json_loads (VStr raw) = Ok (VDict d))
    by (vm_compute; reflexivity).
  destruct (@missing_fields_are_listed ascii_runtime calm_world event VNone
              initial_state (VStr raw) d B J) as (_ & _ & Hmiss).
  destruct Hmiss as (E & _ & Hall).
  { exists (u "Reason"). split; [right; right; left|]; vm_compute; reflexivity. }
  exists d. split; [exact B|]. split; [exact J|].
  split; [exact E|exact Hall].
Defined.

(** The example of the specification: a body without [Reason]. *)
Lemma missing_reason_example `{PyRuntime} (w : World) (st : State) :
  handler w
          (http_event (json_text "{'Busbreakdown ID': 1, 'Route Number': '12'}"))
          VNone st
  = ({| statusCode := 400;
        body := json_text "{'error': 'Missing required fields: Reason'}" |},
     st).
Proof.
  unfold handler. rewrite handler_try_phases.
  replace (receive _) with
      (@inl exn value (Exn ValueError (u "Missing required fields: Reason")))
    by (vm_compute; reflexivity).
  vm_compute. reflexivity.
Qed.

(** ** The example of the specification, end to end *)

(** C2, as the code has it: the record is persisted with priority
    [high] and the response is 200, but the delay of ["10-20 min"] is
    0 (the claim: 15). *)
Theorem end_to_end_example `{PyRuntime} :
  let event :=
    http_event (json_text "{'Busbreakdown ID': 1, 'Route Number': '12', 'Reason': 'Flat Tire', 'How Long Delayed': '10-20 min'}") in
  let run := handler calm_world event VNone initial_state in
  fst run =
  {| statusCode := 200;
     body := json_text "{'message': 'Processed successfully'}" |} /\
  persisted (calls (snd run)) =
  [[(u "RouteNumber", VStr (u "12"));
    (u "OccurredOn", VStr (utcnow_isoformat calm_world 1));
    (u "Busbreakdown ID", VInt 1);
    (u "Route Number", VStr (u "12"));
    (u "Reason", VStr (u "Flat Tire"));
    (u "How Long Delayed", VStr (u "10-20 min"));
    (u "alert_priority", VStr (u "high"));
    (u "average_delay_minutes", VInt 0)]].
Proof.
  cbv zeta. unfold handler. rewrite handler_try_phases.
  replace (receive _) with
      (@inr exn value
            (VDict [(u "Busbreakdown ID", VInt 1);
                    (u "Route Number", VStr (u "12"));
                    (u "Reason", VStr (u "Flat Tire"));
                    (u "How Long Delayed", VStr (u "10-20 min"))]))
    by (vm_compute; reflexivity).
  cbv zeta. cbn [s3_put_object calm_world].
  rewrite transform_dict.
  replace (parse_delay _) with (@inr exn Z 0%Z).
  2:{ symmetry.
      change (dict_get_default _ (u "How Long Delayed") (VStr []))
        with (VStr (u "10-20 min")).
      apply parse_delay_without_backslash;
        rewrite lower_strip_ascii by (vm_compute; reflexivity);
        vm_compute; reflexivity. }
  split; vm_compute; reflexivity.
Qed.

(** * Further properties *)

(** ** The greedy loop on one letter *)











(** ** [parse_delay], completely *)

(** X1: whatever value it is given, a delay that [parse_delay] returns
    is 0 or 60: no branch that reads a number ever returns. *)
Theorem parse_delay_is_zero_or_sixty `{PyRuntime} (v : value) (n : Z) :
  parse_delay v = Ok n -> n = 0%Z \/ n = 60%Z.
Proof.
  intros E. destruct (parse_delay_returns _ E) as [->| ->]; [left|right];
    reflexivity.
Qed.

Lemma parse_delay_is_zero_or_sixty_witness :
  @parse_delay ascii_runtime (VStr (u "90 min")) = Ok 0%Z /\
  (0 = 0 \/ 0 = 60)%Z.
Proof.
  assert (E : @parse_delay ascii_runtime (VStr (u "90 min")) = Ok 0%Z)
    by (vm_compute; reflexivity).
  exact (conj E (@parse_delay_is_zero_or_sixty ascii_runtime _ _ E)).
Defined.


(** ** The requests of an invocation *)

Lemma handler_of_try `{PyRuntime} (w : World) (event context : value)
      (st : State) (r : result unit) (st' : State) :
  handler_try w event context st = (r, st') ->
  handler w event context st =
  (match r with inl e => error_response e | inr _ => success_response end,
   st').
Proof. intros E. unfold handler. rewrite E. now destruct r. Qed.

(** X3: an invocation adds to the requests sent so far nothing, or one
    archive request, or one archive request followed by one item for
    the table: nothing when the event is rejected, and an item only
    after the bucket accepted the archive of a payload that is a
    [dict]. *)
Theorem handler_requests_in_order `{PyRuntime} (w : World)
        (event context : value) (st : State) :
  exists new,
    calls (snd (handler w event context st)) = calls st ++ new /\
    ((new = [] /\ exists e, receive event = inl e) \/
     (exists body,
         receive event = Ok body /\
         new = [S3_put_object (archive_request w st body)] /\
         statusCode (fst (handler w event context st)) = 400%Z) \/
     (exists d item,
         receive event = Ok (VDict d) /\
         s3_put_object w (tick st) (archive_request w st (VDict d)) = None /\
         new = [S3_put_object (archive_request w st (VDict d));
                Table_put_item (TABLE_NAME w) item])).
Proof.
  pose proof (handler_try_run w event context st) as Hrun.
  destruct (handler_try w event context st) as [r st'] eqn:E.
  rewrite (handler_of_try _ _ _ _ E). cbn [fst snd] in *.
  inversion Hrun as [e R | body e st1 R C _
                     | d priority delay route r1 st1 R S3 P D G C Hr]; subst.
  - exists []. rewrite app_nil_r. split; [reflexivity|]. left. eauto.
  - eexists. split; [exact C|]. right; left.
    exists body. repeat split; assumption.
  - eexists. split; [exact C|]. right; right.
    exists d, (item_of w st d priority delay route). repeat split; assumption.
Qed.

(** X4: an event that cannot be received is answered 400 and nothing
    is sent: an event without [body], a [body] that is not a [str],
    and a [body] that [json.loads] refuses. *)
Theorem unreadable_event_sends_nothing `{PyRuntime} (w : World)
        (ev : pydict) (context : value) (st : State) :
  (dict_get ev (u "body") = None ->
   handler w (VDict ev) context st =
   (error_response (Exn KeyError (u "'body'")), st)) /\
  (forall raw,
      dict_get ev (u "body") = Some raw ->
      (forall s, raw <> VStr s) ->
      handler w (VDict ev) context st =
      (error_response
         (Exn TypeError
              (u "the JSON object must be str, bytes or bytearray, not "
                 ++ type_name raw)), st)) /\
  (forall raw e,
      dict_get ev (u "body") = Some raw ->
      json_loads raw = inl e ->
      handler w (VDict ev) context st = (error_response e, st)).
Proof.
  assert (Hrej : forall e, receive (VDict ev) = inl e ->
                           handler w (VDict ev) context st
                           = (error_response e, st)).
  { intros e R. unfold handler. rewrite handler_try_phases, R. reflexivity. }
  assert (Hload : forall raw e,
             dict_get ev (u "body") = Some raw ->
             json_loads raw = inl e ->
             receive (VDict ev) = inl e).
  { intros raw e G J. unfold receive. cbn [py_getitem]. rewrite G.
    unfold Ok. cbn [rbind]. rewrite J. reflexivity. }
  split; [|split].
  - intros G. apply Hrej. unfold receive. cbn [py_getitem]. rewrite G.
    replace (py_repr (u "body")) with (u "'body'") by (vm_compute; reflexivity).
    reflexivity.
  - intros raw G Hs. apply Hrej, (Hload raw _ G).
    destruct raw; try reflexivity. now destruct (Hs s).
  - intros raw e G J. apply Hrej, (Hload raw e G J).
Qed.

(** ** Storage failures *)

(** X5: when the bucket refuses the archive, the handler answers 400
    with the text of that exception and stops: the archive request is
    the only one sent, and the clock was read once. *)
Theorem archive_failure_stops_the_run `{PyRuntime} (w : World)
        (event context body : value) (st : State) (e : exn) :
  receive event = Ok body ->
  s3_put_object w (tick st) (archive_request w st body) = Some e ->
  handler w event context st =
  (error_response e,
   {| clock_reads := S (clock_reads st);
      calls := calls st ++ [S3_put_object (archive_request w st body)] |}).
Proof.
  intros R S3. unfold handler. rewrite handler_try_phases, R.
  cbv beta iota zeta delta [Ok]. rewrite S3. reflexivity.
Qed.

Lemma archive_failure_stops_the_run_witness :
  let event :=
    http_event (json_text "{'Busbreakdown ID': 1, 'Route Number': '12', 'Reason': 'Other'}") in
  exists body,
    @receive ascii_runtime event = Ok body /\
    @handler ascii_runtime closed_bucket_world event VNone initial_state =
    (@error_response ascii_runtime (Exn ServiceError (u "AccessDenied")),
     {| clock_reads := 1;
        calls := [S3_put_object
                    (@archive_request ascii_runtime closed_bucket_world
                                      initial_state body)] |}).
Proof.
  intros event.
  pose (body := match @receive ascii_runtime event with
                | inr b => b
                | inl _ => VNone
                end).
  assert (R : @receive ascii_runtime event = Ok body)
    by (vm_compute; reflexivity).
  exists body. split; [exact R|].
  exact (@archive_failure_stops_the_run ascii_runtime closed_bucket_world
           event VNone body initial_state _ R eq_refl).
Defined.

(** X6: once the item is sent, the table alone decides the response:
    200 when it accepts, 400 with the text of its exception when it
    refuses; the archive request stays sent either way. *)
Theorem table_decides_the_response `{PyRuntime} (w : World)
        (event context : value) (st : State)
        (req : S3PutObject) (table : pystr) (item : pydict) :
  calls (snd (handler w event context st)) =
  calls st ++ [S3_put_object req; Table_put_item table item] ->
  fst (handler w event context st) =
  match table_put_item
          w {| clock_reads := S (S (clock_reads st));
               calls := calls st ++ [S3_put_object req] |} item with
  | Some e => error_response e
  | None => success_response
  end.
Proof.
  pose proof (handler_try_run w event context st) as Hrun.
  destruct (handler_try w event context st) as [r st'] eqn:E.
  rewrite (handler_of_try _ _ _ _ E). cbn [fst snd] in *.
  intros Hcalls.
  inversion Hrun as [e R | body e st1 R C _
                     | d priority delay route r1 st1 R S3 P D G C Hr]; subst.
  - rewrite <- (app_nil_r (calls st')) in Hcalls at 1.
    apply app_inv_head in Hcalls. discriminate.
  - rewrite C in Hcalls. apply app_inv_head in Hcalls. discriminate.
  - rewrite C in Hcalls. apply app_inv_head in Hcalls.
    inversion Hcalls as [[Hreq Htable Hitem]].
    unfold tick, sent. cbn [clock_reads calls].
    now destruct (table_put_item w _ _).
Qed.

Lemma table_decides_the_response_witness :
  let event :=
    http_event (json_text "{'Busbreakdown ID': 1, 'Route Number': '12', 'Reason': 'Other'}") in
  let run :=
    @handler ascii_runtime closed_table_world event VNone initial_state in
  fst run =
  @error_response ascii_runtime
    (Exn ServiceError (u "ResourceNotFoundException")) /\
  List.length (calls (snd run)) = 2%nat.
Proof.
  intros event run.
  pose (req := match calls (snd run) with
               | S3_put_object r :: _ => r
               | _ => {| Bucket := []; Key := []; Body := []; ContentType := [] |}
               end).
  pose (item := hd [] (persisted (calls (snd run)))).
  assert (C : calls (snd run) =
              calls initial_state ++
              [S3_put_object req; Table_put_item (u "incidents") item])
    by (vm_compute; reflexivity).
  split; [|vm_compute; reflexivity].
  exact (@table_decides_the_response ascii_runtime closed_table_world event
           VNone initial_state req (u "incidents") item C).
Defined.

(** ** Payloads that are not a [dict] *)

Lemma not_in_tested (data : value) (test : pystr -> bool) :
  (forall f, py_contains data f = Ok (test f)) ->
  forall fields,
    not_in fields data = Ok (filter (fun f => negb (test f)) fields).
Proof.
  intros Hc. induction fields as [|f fields IH]; [reflexivity|].
  cbn [not_in]. rewrite Hc, IH. unfold Ok. cbn [rbind filter].
  now destruct (test f).
Qed.

Lemma validate_tested (data : value) (test : pystr -> bool) :
  (forall f, py_contains data f = Ok (test f)) ->
  (validate_payload data = Ok tt <->
   forall f, In f required_fields -> test f = true).
Proof.
  intros Hc. unfold validate_payload.
  rewrite (not_in_tested _ _ Hc). unfold Ok at 1. cbn [rbind].
  destruct (filter _ required_fields) as [|f l] eqn:E.
  - split; [|reflexivity]. intros _ f Hf.
    destruct (test f) eqn:T; [reflexivity|].
    assert (Hin : In f (filter (fun f => negb (test f)) required_fields))
      by (apply filter_In; now rewrite T).
    rewrite E in Hin. destruct Hin.
  - split; [discriminate|]. intros Hall.
    assert (Hin : In f (filter (fun f => negb (test f)) required_fields))
      by (rewrite E; now left).
    apply filter_In in Hin as [Hf Hc']. rewrite (Hall f Hf) in Hc'.
    discriminate.
Qed.

(** X7: [validate_payload] on a payload that is not a [dict].  A [list]
    passes when the three field names are among its elements, a [str]
    when they occur in it; [None], a [bool] and a number raise
    [TypeError]. *)
Theorem validate_payload_of_other_types :
  (forall l,
      validate_payload (VList l) = Ok tt <->
      forall f, In f required_fields -> In (VStr f) l) /\
  (forall s,
      validate_payload (VStr s) = Ok tt <->
      forall f, In f required_fields ->
                exists pre post, s = pre ++ f ++ post) /\
  (forall v,
      In (type_name v) [u "NoneType"; u "bool"; u "int"; u "float"] ->
      validate_payload v =
      Raise TypeError
            (u "argument of type '" ++ type_name v ++ u "' is not iterable")).
Proof.
  split; [|split].
  - intros l.
    rewrite (validate_tested (VList l) (fun f => existsb (py_eq_str f) l))
      by reflexivity.
    split; intros Hall f Hf; specialize (Hall f Hf).
    + apply existsb_exists in Hall as (x & Hx & E).
      destruct x; try discriminate. apply str_eqb_eq in E. now subst.
    + apply existsb_exists. exists (VStr f). split; [exact Hall|].
      apply str_eqb_refl.
  - intros s.
    rewrite (validate_tested (VStr s) (fun f => str_in f s)) by reflexivity.
    split; intros Hall f Hf; apply str_in_iff, Hall, Hf.
  - intros v Hv.
    destruct v; try reflexivity;
      exfalso; cbn [type_name In] in Hv;
      repeat (destruct Hv as [Hv|Hv]; [vm_compute in Hv; discriminate|]);
      destruct Hv.
Qed.

(** X8: a payload that passed validation and is not a [dict] is
    archived and then answered 400; no item is sent to the table.
    When the bucket accepts the archive, the error is that of [get]. *)
Theorem payload_of_other_type_is_not_persisted `{PyRuntime} (w : World)
        (event context body : value) (st : State) :
  receive event = Ok body ->
  (forall d, body <> VDict d) ->
  statusCode (fst (handler w event context st)) = 400%Z /\
  calls (snd (handler w event context st)) =
  calls st ++ [S3_put_object (archive_request w st body)] /\
  (s3_put_object w (tick st) (archive_request w st body) = None ->
   fst (handler w event context st) =
   error_response
     (Exn AttributeError
          (u "'" ++ type_name body ++ u "' object has no attribute 'get'"))).
Proof.
  intros R Hd.
  assert (T : transform body = no_attribute value body "get").
  { destruct body; try reflexivity. now destruct (Hd d). }
  unfold handler. rewrite handler_try_phases, R.
  cbv beta iota zeta delta [Ok].
  destruct (s3_put_object w (tick st) _) as [e|]; cbn [fst snd].
  - repeat split. discriminate.
  - rewrite T. unfold no_attribute, Raise. cbn [fst snd]. repeat split.
Qed.

Lemma payload_of_other_type_is_not_persisted_witness :
  let event :=
    http_event (json_text "['Reason', 'Route Number', 7, 'Busbreakdown ID']") in
  let run := @handler ascii_runtime calm_world event VNone initial_state in
  exists body,
    @receive ascii_runtime event = Ok body /\
    statusCode (fst run) = 400%Z /\
    calls (snd run) =
    calls initial_state ++
    [S3_put_object (@archive_request ascii_runtime calm_world initial_state
                                     body)] /\
    fst run =
    @error_response ascii_runtime
      (Exn AttributeError (u "'list' object has no attribute 'get'")).
Proof.
  intros event run.
  pose (body := match @receive ascii_runtime event with
                | inr b => b
                | inl _ => VNone
                end).
  assert (R : @receive ascii_runtime event = Ok body)
    by (vm_compute; reflexivity).
  assert (Hd : forall d, body <> VDict d) by (intros d; vm_compute; discriminate).
  destruct (@payload_of_other_type_is_not_persisted ascii_runtime calm_world
              event VNone body initial_state R Hd) as (H400 & Hcalls & _).
  exists body. split; [exact R|]. split; [exact H400|].
  split; [exact Hcalls|]. vm_compute. reflexivity.
Defined.

(** ** The reason *)

(** X9: the table is matched exactly.  The priority found for a reason
    is [high] only for the four texts of the table and [medium] only
    for the two; every other reason that can be hashed (a text in
    another letter case, a number, [None]) gives [low]. *)
Theorem alert_priority_is_exact (reason priority : value) :
  dict_get_value ALERT_PRIORITY_MAP reason (VStr (u "low")) = Ok priority ->
  (priority = VStr (u "high") <->
   In reason (map VStr [u "Mechanical Problem"; u "Flat Tire";
                        u "Won't Start"; u "Accident"])) /\
  (priority = VStr (u "medium") <->
   In reason (map VStr [u "Heavy Traffic"; u "Weather Conditions"])) /\
  (priority <> VStr (u "high") -> priority <> VStr (u "medium") ->
   priority = VStr (u "low")).
Proof.
  intros P.
  assert (Hnot : forall r, (forall s, r <> VStr s) ->
                           forall l, ~ In r (map VStr l)).
  { intros r Hr l Hin. apply in_map_iff in Hin as (s & E & _).
    now destruct (Hr s). }
  unfold dict_get_value in P.
  destruct reason as [| | | |r| |]; try discriminate;
    try (inversion P; subst; repeat split;
         try discriminate; try reflexivity;
         intros Hin; exfalso; revert Hin; apply Hnot; discriminate).
  unfold ALERT_PRIORITY_MAP in P. cbn [dict_get] in P.
  repeat match type of P with
         | context [str_eqb ?k r] =>
           let E := fresh "E" in
           destruct (str_eqb k r) eqn:E;
             [ apply str_eqb_eq in E; subst r; inversion P; subst;
               repeat split; intros; try discriminate; try reflexivity;
               try (cbn [map In]; tauto);
               try (exfalso; cbn [map In] in *;
                    repeat match goal with
                           | Hin : _ \/ _ |- _ => destruct Hin as [Hin|Hin]
                           | Hin : VStr _ = VStr _ |- _ =>
                             vm_compute in Hin; discriminate Hin
                           | Hin : False |- _ => destruct Hin
                           end)
             | ]
         end.
  inversion P; subst. repeat split; try discriminate; try reflexivity.
  - intros Hin. cbn [map In] in Hin.
    repeat (destruct Hin as [Hin|Hin];
            [inversion Hin; subst r;
             rewrite str_eqb_refl in *; discriminate|]).
    destruct Hin.
  - intros Hin. cbn [map In] in Hin.
    repeat (destruct Hin as [Hin|Hin];
            [inversion Hin; subst r;
             rewrite str_eqb_refl in *; discriminate|]).
    destruct Hin.
Qed.

Lemma alert_priority_is_exact_witness :
  dict_get_value ALERT_PRIORITY_MAP (VStr (u "flat tire")) (VStr (u "low"))
  = Ok (VStr (u "low")) /\
  ~ In (VStr (u "flat tire"))
       (map VStr [u "Mechanical Problem"; u "Flat Tire";
                  u "Won't Start"; u "Accident"]).
Proof.
  assert (P : dict_get_value ALERT_PRIORITY_MAP (VStr (u "flat tire"))
                             (VStr (u "low")) = Ok (VStr (u "low")))
    by (vm_compute; reflexivity).
  split; [exact P|].
  intros Hin.
  apply (proj1 (@alert_priority_is_exact _ _ P)) in Hin.
  vm_compute in Hin. discriminate Hin.
Defined.

(** X10: a valid payload whose [Reason] is a [list] or a [dict] is
    archived and then answered 400, and no item is sent: the reason
    cannot be looked up in the table because it cannot be hashed. *)
Theorem unhashable_reason_is_rejected `{PyRuntime} (w : World)
        (event context : value) (st : State) (d : pydict) (reason : value) :
  receive event = Ok (VDict d) ->
  dict_get d (u "Reason") = Some reason ->
  In (type_name reason) [u "list"; u "dict"] ->
  statusCode (fst (handler w event context st)) = 400%Z /\
  calls (snd (handler w event context st)) =
  calls st ++ [S3_put_object (archive_request w st (VDict d))] /\
  (s3_put_object w (tick st) (archive_request w st (VDict d)) = None ->
   fst (handler w event context st) =
   error_response
     (Exn TypeError (u "unhashable type: '" ++ type_name reason ++ u "'"))).
Proof.
  intros R G Hty.
  assert (T : transform (VDict d) =
              Raise TypeError
                    (u "unhashable type: '" ++ type_name reason ++ u "'")).
  { rewrite transform_dict. unfold dict_get_default. rewrite G.
    destruct reason; try reflexivity;
      exfalso; cbn [type_name In] in Hty;
      repeat (destruct Hty as [Hty|Hty]; [vm_compute in Hty; discriminate|]);
      destruct Hty. }
  unfold handler. rewrite handler_try_phases, R.
  cbv beta iota zeta delta [Ok].
  destruct (s3_put_object w (tick st) _) as [e|]; cbn [fst snd].
  - repeat split. discriminate.
  - rewrite T. unfold Raise. cbn [fst snd]. repeat split.
Qed.

Lemma unhashable_reason_is_rejected_witness :
  let event :=
    http_event (json_text "{'Busbreakdown ID': 1, 'Route Number': '12', 'Reason': ['Flat Tire']}") in
  let run := @handler ascii_runtime calm_world event VNone initial_state in
  exists d,
    @receive ascii_runtime event = Ok (VDict d) /\
    statusCode (fst run) = 400%Z /\
    persisted (calls (snd run)) = [] /\
    fst run =
    @error_response ascii_runtime
      (Exn TypeError (u "unhashable type: 'list'")).
Proof.
  intros event run.
  pose (d := match @receive ascii_runtime event with
             | inr (VDict d) => d
             | _ => []
             end).
  assert (R : @receive ascii_runtime event = Ok (VDict d))
    by (vm_compute; reflexivity).
  assert (G : dict_get d (u "Reason") = Some (VList [VStr (u "Flat Tire")]))
    by (vm_compute; reflexivity).
  assert (Hty : In (type_name (VList [VStr (u "Flat Tire")]))
                   [u "list"; u "dict"]) by (left; reflexivity).
  destruct (@unhashable_reason_is_rejected ascii_runtime calm_world event
              VNone initial_state d _ R G Hty) as (H400 & Hcalls & _).
  exists d. split; [exact R|]. split; [exact H400|].
  split; vm_compute; reflexivity.
Defined.

(** ** The persisted item, field by field *)

(** X11: the two key fields of the item of a successful invocation.
    [RouteNumber] is the payload's [Route Number] and [OccurredOn] its
    [Occurred On], or the second reading of the clock when the payload
    has none; but a payload field named [RouteNumber] or [OccurredOn]
    takes the place of the computed one.  The archive is named after
    the first reading of the clock. *)
Theorem item_key_fields `{PyRuntime} (w : World)
        (event context : value) (st : State) :
  statusCode (fst (handler w event context st)) = 200%Z ->
  exists d item request,
    receive event = Ok (VDict d) /\
    calls (snd (handler w event context st)) =
    calls st ++ [S3_put_object request; Table_put_item (TABLE_NAME w) item] /\
    Key request = utcnow_isoformat w (clock_reads st) ++ u ".json" /\
    dict_get item (u "RouteNumber") =
    match dict_get d (u "RouteNumber") with
    | Some v => Some v
    | None => dict_get d (u "Route Number")
    end /\
    dict_get item (u "OccurredOn") =
    Some match dict_get d (u "OccurredOn") with
         | Some v => v
         | None =>
           match dict_get d (u "Occurred On") with
           | Some v => v
           | None => VStr (utcnow_isoformat w (S (clock_reads st)))
           end
         end.
Proof.
  intros H200.
  destruct (handler_status w event context st) as (S200 & _ & Hsnd).
  apply S200 in H200. rewrite Hsnd.
  pose proof (handler_try_run w event context st) as Hrun.
  rewrite H200 in Hrun.
  inversion Hrun as [ | | d priority delay route r st' R S3 P D G C Hr]; subst.
  pose proof (receive_NoDup _ R) as Hnd.
  destruct (enriched_get d priority delay) as (_ & _ & Eo).
  exists d, (item_of w st d priority delay route),
    (archive_request w st (VDict d)).
  split; [exact R|]. split; [exact C|]. split; [reflexivity|].
  split.
  - rewrite item_of_get by exact Hnd.
    rewrite Eo by (vm_compute; discriminate).
    destruct (dict_get d (u "RouteNumber")); [reflexivity|].
    unfold item_keys. cbn [dict_get].
    replace (str_eqb (u "RouteNumber") (u "RouteNumber")) with true
      by (vm_compute; reflexivity).
    now rewrite G.
  - rewrite item_of_get by exact Hnd.
    rewrite Eo by (vm_compute; discriminate).
    destruct (dict_get d (u "OccurredOn")); [reflexivity|].
    unfold item_keys, dict_get_default. cbn [dict_get].
    replace (str_eqb (u "RouteNumber") (u "OccurredOn")) with false
      by (vm_compute; reflexivity).
    replace (str_eqb (u "OccurredOn") (u "OccurredOn")) with true
      by (vm_compute; reflexivity).
    rewrite Eo by (vm_compute; discriminate). reflexivity.
Qed.

Lemma item_key_fields_witness :
  let event :=
    http_event (json_text "{'Busbreakdown ID': 1, 'Route Number': '12', 'Reason': 'Other', 'RouteNumber': 'X9'}") in
  let run := @handler ascii_runtime calm_world event VNone initial_state in
  statusCode (fst run) = 200%Z /\
  exists item,
    persisted (calls (snd run)) = [item] /\
    dict_get item (u "RouteNumber") = Some (VStr (u "X9")) /\
    dict_get item (u "OccurredOn")
    = Some (VStr (utcnow_isoformat calm_world 1)).
Proof.
  intros event run.
  assert (H200 : statusCode (fst run) = 200%Z) by (vm_compute; reflexivity).
  split; [exact H200|].
  destruct (@item_key_fields ascii_runtime calm_world event VNone
              initial_state H200) as (d & item & request & R & C & _).
  exists item. fold run in C. rewrite C. cbn [calls initial_state app persisted].
  split; [reflexivity|].
  assert (E : persisted (calls (snd run)) = [item])
    by (rewrite C; reflexivity).
  assert (Ei : hd [] (persisted (calls (snd run))) = item)
    by (rewrite E; reflexivity).
  rewrite <- Ei. split; vm_compute; reflexivity.
Defined.

(** X12: when the item is sent and the payload's [How Long Delayed] is
    absent or falsy (an empty text, [None], zero, an empty [list]), the
    persisted delay is 0. *)
Theorem absent_delay_is_zero `{PyRuntime} (w : World)
        (event context : value) (st : State) (d : pydict)
        (new : list call) (item : pydict) :
  receive event = Ok (VDict d) ->
  truthy (dict_get_default d (u "How Long Delayed") (VStr [])) = false ->
  calls (snd (handler w event context st)) = calls st ++ new ->
  In item (persisted new) ->
  dict_get item (u "average_delay_minutes") = Some (VInt 0).
Proof.
  intros R F Hcalls Hin.
  destruct (handler_status w event context st) as (_ & _ & Hsnd).
  rewrite Hsnd in Hcalls.
  destruct (run_of_calls (handler_try_run w event context st))
    as [C | [(body & R' & C) | (d' & priority & delay & route & R' & P & D & C)]];
    rewrite C in Hcalls.
  - rewrite <- (app_nil_r (calls st)) in Hcalls at 1.
    apply app_inv_head in Hcalls. subst new. destruct Hin.
  - apply app_inv_head in Hcalls. subst new. destruct Hin.
  - apply app_inv_head in Hcalls. subst new.
    destruct Hin as [<-|[]].
    rewrite R in R'. inversion R'; subst d'.
    rewrite (parse_delay_falsy _ F) in D. inversion D; subst delay.
    rewrite item_of_get by exact (receive_NoDup _ R).
    destruct (enriched_get d priority 0) as (_ & -> & _). reflexivity.
Qed.

Lemma absent_delay_is_zero_witness :
  let event :=
    http_event (json_text "{'Busbreakdown ID': 1, 'Route Number': '12', 'Reason': 'Other', 'How Long Delayed': null}") in
  let run := @handler ascii_runtime calm_world event VNone initial_state in
  let item := hd [] (persisted (calls (snd run))) in
  In item (persisted (calls (snd run))) /\
  dict_get item (u "average_delay_minutes") = Some (VInt 0).
Proof.
  intros event run item.
  pose (d := match @receive ascii_runtime event with
             | inr (VDict d) => d
             | _ => []
             end).
  assert (R : @receive ascii_runtime event = Ok (VDict d))
    by (vm_compute; reflexivity).
  assert (F : @truthy ascii_runtime
                (dict_get_default d (u "How Long Delayed") (VStr [])) = false)
    by (vm_compute; reflexivity).
  assert (Hin : In item (persisted (calls (snd run))))
    by (vm_compute; left; reflexivity).
  split; [exact Hin|].
  exact (@absent_delay_is_zero ascii_runtime calm_world event VNone
           initial_state d (calls (snd run)) item R F eq_refl Hin).
Defined.

(** ** Success *)

(** X13: the handler answers 200 exactly when the event's body parses
    to a [dict] with the three required fields, the bucket accepts the
    archive, the reason can be looked up, [parse_delay] returns, and
    the table accepts the item. *)
Theorem success_exactly_when `{PyRuntime} (w : World)
        (event context : value) (st : State) :
  statusCode (fst (handler w event context st)) = 200%Z <->
  exists d priority delay route,
    receive event = Ok (VDict d) /\
    s3_put_object w (tick st) (archive_request w st (VDict d)) = None /\
    dict_get_value ALERT_PRIORITY_MAP
      (dict_get_default d (u "Reason") (VStr (u "Other")))
      (VStr (u "low")) = Ok priority /\
    parse_delay (dict_get_default d (u "How Long Delayed") (VStr []))
    = Ok delay /\
    dict_get d (u "Route Number") = Some route /\
    table_put_item
      w (tick (sent (S3_put_object (archive_request w st (VDict d))) (tick st)))
      (item_of w st d priority delay route) = None.
Proof.
  split.
  - intros H200.
    destruct (handler_status w event context st) as (S200 & _ & _).
    apply S200 in H200.
    pose proof (handler_try_run w event context st) as Hrun.
    rewrite H200 in Hrun.
    inversion Hrun as [ | | d priority delay route r st' R S3 P D G C Hr];
      subst.
    exists d, priority, delay, route. repeat split; try assumption.
    destruct (table_put_item w _ _); [discriminate | reflexivity].
  - intros (d & priority & delay & route & R & S3 & P & D & G & T).
    unfold handler. rewrite handler_try_phases, R.
    cbv beta iota zeta delta [Ok]. rewrite S3, transform_dict, P.
    cbn [rbind]. rewrite D. unfold Ok. cbn [rbind py_getitem].
    destruct (enriched_get d priority delay) as (_ & _ & Eo).
    rewrite Eo, G by (vm_compute; discriminate).
    unfold Ok. cbv beta iota. rewrite build_item_dict.
    unfold Ok. cbv beta iota.
    unfold item_of in T. cbv zeta in T.
    cbn [sent tick clock_reads calls] in *. rewrite T. reflexivity.
Qed.
